(** * ServiceTitan MCP servers: the token helper and the request wrappers

    A shallow embedding of [get_access_token] as it is written in
    [servicetitan_accounting.py] (module-level token cache), in
    [servicetitan_crm.py] (no cache), in [servicetitan_core.py] (no
    cache, type check on the token) and in
    [servicetitan_marketing_ads.py] (no cache, two of the four values
    tested), of the wrappers that call it, and of the wrappers of
    [servicetitan_service_agreements.py].

    Conventions of the embedding:
    - Python values that come out of [response.json()] are terms of [json];
      [None] is [JNull].  JSON numbers are integers; [time.time()]
      readings and the expiry are floats that hold whole seconds, kept as
      the integer they are worth, and arithmetic on them rounds as double
      precision does.
    - An [async def] is a computation in the monad [Py G]: it reads and
      writes the module globals [G] and the outside world (clock, HTTP
      peer, log of the requests sent), and either returns or raises.
      Assignments made before a [raise] stay in place, as in Python.
    - The HTTP peer is an oracle: the [n]-th request sent receives
      [net n], together with the time the round trip took. *)

From Stdlib Require Import ZArith List String Ascii Bool Lia.
From Stdlib Require Import DecimalString DecimalZ.
Import ListNotations.

Set Warnings "-register-all".

Local Open Scope string_scope.
Local Open Scope list_scope.
Local Open Scope Z_scope.

(* ------------------------------------------------------------------ *)
(** ** Python values *)

Inductive json : Type :=
| JNull
| JBool (b : bool)
| JNum (n : Z)
| JStr (s : string)
| JArr (items : list json)
| JObj (fields : list (string * json)).

(** [bool(v)]: the truth value Python gives to [v]. *)
Definition truthy (v : json) : bool :=
  match v with
  | JNull => false
  | JBool b => b
  | JNum n => negb (n =? 0)
  | JStr s => negb (s =? "")%string
  | JArr items => match items with [] => false | _ => true end
  | JObj fields => match fields with [] => false | _ => true end
  end.

(** [bool(v)] for a value returned by [os.getenv]. *)
Definition env_truthy (v : option string) : bool :=
  match v with
  | None => false
  | Some s => negb (s =? "")%string
  end.

(** [isinstance(v, str)] *)
Definition is_str (v : json) : bool :=
  match v with JStr _ => true | _ => false end.

(** A dict is kept as the list of its items; a key occurs once. *)
Fixpoint lookup (key : string) (fields : list (string * json)) : option json :=
  match fields with
  | [] => None
  | (k, v) :: rest => if (k =? key)%string then Some v else lookup key rest
  end.

(** [str(n)] for an [int]. *)
Definition str_of_int (n : Z) : string := NilZero.string_of_int (Z.to_int n).

(** [f"{v}"] for a value returned by [os.getenv]. *)
Definition env_str (v : option string) : string :=
  match v with
  | Some s => s
  | None => "None"
  end.

(** [v is not None] *)
Definition is_not_none (v : json) : bool :=
  match v with JNull => false | _ => true end.

(** [if cond: d[key] = v] on a dict that has no [key] yet. *)
Definition set_if (cond : bool) (key : string) (v : json)
    (d : list (string * json)) : list (string * json) :=
  if cond then d ++ [(key, v)] else d.

(** [sep.join(parts)] *)
Fixpoint join (sep : string) (parts : list string) : string :=
  match parts with
  | [] => ""
  | [p] => p
  | p :: rest => p ++ sep ++ join sep rest
  end.

(** [needle in hay] on strings. *)
Fixpoint contains (needle hay : string) : bool :=
  String.prefix needle hay
  || match hay with
     | EmptyString => false
     | String _ rest => contains needle rest
     end.

(* ------------------------------------------------------------------ *)
(** ** HTTP messages, exceptions, the outside world *)

Record Response : Type := mkResponse {
  status_code : Z;
  text : string;                 (* the raw body *)
  json_body : option json        (* what [.json()] parses it to, if it parses *)
}.

(** The value of a header or of a form field: a literal, a configuration
    value as read from the environment, or [f"Bearer {token}"]. *)
Inductive field_value : Type :=
| Lit (s : string)
| Env (v : option string)
| Bearer (token : json).

Record Request : Type := mkRequest {
  method : string;
  url : string;
  headers : list (string * field_value);
  params : option (list (string * json));
  data : list (string * field_value);      (* form-encoded body *)
  json_payload : option json               (* JSON body *)
}.

Inductive type_error : Type :=
| NotSubscriptable (v : json)              (* v["key"] on a non-dict *)
| BadOperand (v : json)                    (* number + v *)
| TokenNotStr (v : json).                  (* ERROR_TOKEN of servicetitan_core.py *)

Inductive exn : Type :=
| ValueError (msg : string)
| Exception (msg : string)
| KeyError (key : string)
| TypeError (why : type_error)
| AttributeError (v : json)                (* v.get on a non-dict *)
| OverflowError                            (* int too large to convert to float *)
| JSONDecodeError
| HTTPStatusError (response : Response)    (* httpx: carries the response *)
| TransportError (msg : string).           (* httpx: no response at all *)

Inductive outcome (A : Type) : Type :=
| Return (a : A)
| Raise (e : exn).
Arguments Return {A} a.
Arguments Raise {A} e.

Inductive reply : Type :=
| Replied (r : Response)
| Failed (msg : string).

Record NetEvent : Type := mkNetEvent {
  elapsed : Z;          (* seconds the round trip takes *)
  result : reply
}.

Record World : Type := mkWorld {
  now : Z;                      (* what [time.time()] returns *)
  net : nat -> NetEvent;        (* the peer's answer to the n-th request *)
  sent : list Request           (* requests issued so far, oldest first *)
}.

(** The four values every module reads from the environment at import. *)
Record Config : Type := mkConfig {
  CLIENT_ID : option string;
  CLIENT_SECRET : option string;
  APP_KEY : option string;
  TENANT_ID : option string
}.

Definition config_ok (cfg : Config) : bool :=
  env_truthy (CLIENT_ID cfg) && env_truthy (CLIENT_SECRET cfg)
  && env_truthy (APP_KEY cfg) && env_truthy (TENANT_ID cfg).

(* ------------------------------------------------------------------ *)
(** ** The monad of Python computations *)

Record State (G : Type) : Type := mkState {
  globals : G;
  world : World
}.
Arguments mkState {G} globals world.
Arguments globals {G} s.
Arguments world {G} s.

Definition Py (G A : Type) : Type := State G -> outcome A * State G.

Definition ret {G A} (a : A) : Py G A := fun s => (Return a, s).

Definition raise {G A} (e : exn) : Py G A := fun s => (Raise e, s).

Definition bind {G A B} (m : Py G A) (k : A -> Py G B) : Py G B :=
  fun s =>
    match m s with
    | (Return a, s') => k a s'
    | (Raise e, s') => (Raise e, s')
    end.

Declare Scope py_scope.
Delimit Scope py_scope with py.
Notation "x <- m ;; k" := (bind m (fun x => k))
  (at level 61, m at next level, right associativity) : py_scope.
Notation "m ;; k" := (bind m (fun _ => k))
  (at level 61, right associativity) : py_scope.
Local Open Scope py_scope.

(** [try: m except Exception as e: handler e] *)
Definition try_except {G A} (m : Py G A) (handler : exn -> Py G A) : Py G A :=
  fun s =>
    match m s with
    | (Raise e, s') => handler e s'
    | (Return a, s') => (Return a, s')
    end.

Definition read_globals {G} : Py G G := fun s => (Return (globals s), s).

Definition write_globals {G} (g : G) : Py G unit :=
  fun s => (Return tt, mkState g (world s)).

(** [time.time()] *)
Definition time_time {G} : Py G Z := fun s => (Return (now (world s)), s).

(** [await client.request(...)]: the request goes out, the clock moves on
    by the round-trip time, and the peer's answer (or the transport's
    failure) comes back. *)
Definition deliver {G} (r : reply) : Py G Response :=
  match r with
  | Replied resp => ret resp
  | Failed msg => raise (TransportError msg)
  end.

(** The state once [req] has gone out and its round trip is over. *)
Definition after_round_trip {G} (req : Request) (s : State G) : State G :=
  let w := world s in
  let ev := net w (List.length (sent w)) in
  mkState (globals s) (mkWorld (now w + elapsed ev) (net w) (sent w ++ [req])).

Definition send {G} (req : Request) : Py G Response :=
  fun s =>
    let w := world s in
    let ev := net w (List.length (sent w)) in
    deliver (result ev) (after_round_trip req s).

(** [response.json()] *)
Definition response_json {G} (r : Response) : Py G json :=
  match json_body r with
  | Some v => ret v
  | None => raise JSONDecodeError
  end.

(** [v[key]] with a string key. *)
Definition getitem {G} (v : json) (key : string) : Py G json :=
  match v with
  | JObj fields =>
      match lookup key fields with
      | Some x => ret x
      | None => raise (KeyError key)
      end
  | _ => raise (TypeError (NotSubscriptable v))
  end.

(** The number a value counts as in arithmetic, if any: [bool] is a
    subclass of [int]. *)
Definition as_number (v : json) : option Z :=
  match v with
  | JNum n => Some n
  | JBool b => Some (if b then 1 else 0)
  | _ => None
  end.

(** The double nearest to the integer [z], ties going to the even
    significand: integers up to 2^53 in magnitude are doubles; beyond, a
    double keeps the 53 leading bits. *)
Definition round_to_double (z : Z) : Z :=
  if Z.abs z <=? 9007199254740992 then z
  else
    let e := Z.log2 (Z.abs z) - 52 in
    let q := Z.shiftr (Z.abs z) e in
    let rest := Z.abs z - Z.shiftl q e in
    let half := Z.shiftl 1 (e - 1) in
    let q' := if (half <? rest) || ((rest =? half) && Z.odd q) then q + 1 else q in
    Z.sgn z * Z.shiftl q' e.

(** [float(n)] for an [int]: [None] stands for [OverflowError], raised
    when the nearest double would be 2^1024 or more. *)
Definition float_of_int (n : Z) : option Z :=
  let r := round_to_double n in
  if 2 ^ 1024 <=? Z.abs r then None else Some r.

(** [a + b] on floats that hold whole numbers: the sum is rounded to the
    nearest double, and a sum too large becomes [inf], for which 2^1024
    stands (and -2^1024 for [-inf]). *)
Definition float_add (a b : Z) : Z :=
  let r := round_to_double (a + b) in
  if 2 ^ 1024 <=? r then 2 ^ 1024
  else if r <=? - 2 ^ 1024 then - 2 ^ 1024
  else r.

(** [t + v] where [t] is a float: an [int] or [bool] is converted to a
    float first. *)
Definition add_number {G} (t : Z) (v : json) : Py G Z :=
  match as_number v with
  | Some n =>
      match float_of_int n with
      | Some x => ret (float_add t x)
      | None => raise OverflowError
      end
  | None => raise (TypeError (BadOperand v))
  end.

(** [response.raise_for_status()] of httpx: raises unless the status is
    2xx.  (Old releases of httpx let 1xx and 3xx pass as well; nothing
    below depends on those statuses.) *)
Definition is_success (status : Z) : bool := (200 <=? status) && (status <=? 299).

Definition raise_for_status {G} (r : Response) : Py G unit :=
  if is_success (status_code r) then ret tt else raise (HTTPStatusError r).

(* ------------------------------------------------------------------ *)
(** ** servicetitan_accounting.py *)

Module Accounting.

Definition AUTH_BASE_URL : string := "https://auth.servicetitan.io".
Definition API_BASE_URL : string := "https://api.servicetitan.io/accounting/v2".

(** The module's two global variables. *)
Record Globals : Type := mkGlobals {
  _access_token : json;
  _token_expires_at : Z
}.

(** [_access_token = None], [_token_expires_at = 0] *)
Definition initial : Globals := mkGlobals JNull 0.

Definition missing_vars (cfg : Config) : list string :=
  let missing := [] in
  let missing := if negb (env_truthy (CLIENT_ID cfg))
                 then missing ++ ["SERVICE_TITAN_CLIENT_ID"] else missing in
  let missing := if negb (env_truthy (CLIENT_SECRET cfg))
                 then missing ++ ["SERVICE_TITAN_CLIENT_SECRET"] else missing in
  let missing := if negb (env_truthy (APP_KEY cfg))
                 then missing ++ ["SERVICE_TITAN_APP_KEY"] else missing in
  let missing := if negb (env_truthy (TENANT_ID cfg))
                 then missing ++ ["SERVICE_TITAN_TENANT_ID"] else missing in
  missing.

Definition env_error (cfg : Config) : exn :=
  ValueError ("ERROR_ENV: Missing ServiceTitan environment variables: "
              ++ join ", " (missing_vars cfg)).

(** The POST of line 68. *)
Definition token_request (cfg : Config) : Request :=
  mkRequest "POST" (AUTH_BASE_URL ++ "/connect/token") [] None
    [("grant_type", Lit "client_credentials");
     ("client_id", Env (CLIENT_ID cfg));
     ("client_secret", Env (CLIENT_SECRET cfg))]
    None.

Definition auth_failed (r : Response) : exn :=
  Exception ("Failed to get access token: " ++ str_of_int (status_code r)).

(** Lines 69-76: what the coroutine does once the response is there. *)
Definition on_response (response : Response) : Py Globals json :=
  if negb (status_code response =? 200)
  then raise (auth_failed response)
  else
    token_data <- response_json response ;;
    tok <- getitem token_data "access_token" ;;
    g <- read_globals ;;
    write_globals (mkGlobals tok (_token_expires_at g)) ;;
    t <- time_time ;;
    lifetime <- getitem token_data "expires_in" ;;
    sum <- add_number t lifetime ;;
    g <- read_globals ;;
    write_globals (mkGlobals (_access_token g) (float_add sum (-60))) ;;
    g <- read_globals ;;
    ret (_access_token g).

(** The test of line 58. *)
Definition cache_hit (g : Globals) (t : Z) : bool :=
  truthy (_access_token g) && (t <? _token_expires_at g).

Definition get_access_token (cfg : Config) : Py Globals json :=
  if negb (config_ok cfg) then raise (env_error cfg)
  else
    g <- read_globals ;;
    t <- time_time ;;
    if cache_hit g t
    then ret (_access_token g)
    else
      response <- send (token_request cfg) ;;
      on_response response.

Definition make_api_request (cfg : Config) (method endpoint : string)
    (params : option (list (string * json))) (data : option json)
    : Py Globals json :=
  token <- get_access_token cfg ;;
  let headers := [("Authorization", Bearer token);
                  ("ST-App-Key", Env (APP_KEY cfg));
                  ("Content-Type", Lit "application/json")] in
  let url := (API_BASE_URL ++ "/tenant/" ++ env_str (TENANT_ID cfg)
              ++ endpoint)%string in
  response <- send (mkRequest method url headers params [] data) ;;
  if status_code response >=? 400
  then raise (Exception ("API request failed: "
                         ++ str_of_int (status_code response)
                         ++ " - " ++ text response))
  else response_json response.

Definition get_ap_credits (cfg : Config)
    (ids page page_size include_total created_before created_on_or_after
     modified_before modified_on_or_after sort : json) : Py Globals json :=
  let params := [] in
  let params := set_if (truthy ids) "ids" ids params in
  let params := set_if (truthy page) "page" page params in
  let params := set_if (truthy page_size) "pageSize" page_size params in
  let params := set_if (truthy include_total) "includeTotal" include_total params in
  let params := set_if (truthy created_before) "createdBefore" created_before params in
  let params := set_if (truthy created_on_or_after) "createdOnOrAfter"
                  created_on_or_after params in
  let params := set_if (truthy modified_before) "modifiedBefore"
                  modified_before params in
  let params := set_if (truthy modified_on_or_after) "modifiedOnOrAfter"
                  modified_on_or_after params in
  let params := set_if (truthy sort) "sort" sort params in
  make_api_request cfg "GET" "/ap-credits" (Some params) None.

(** The values the two globals can take: [get_access_token] is the only
    function of the module that assigns them, and it can be called in
    any state of the outside world. *)
Inductive reachable (cfg : Config) : Globals -> Prop :=
| reach_initial : reachable cfg initial
| reach_call g w o s' :
    reachable cfg g ->
    get_access_token cfg (mkState g w) = (o, s') ->
    reachable cfg (globals s').

(** Lines 147-158. *)
Definition mark_ap_credits_as_exported (cfg : Config) (ap_credit_ids : list json)
    : Py Globals json :=
  let data := List.map (fun credit_id => JObj [("apCreditId", credit_id)])
                ap_credit_ids in
  make_api_request cfg "POST" "/ap-credits/markasexported" None (Some (JArr data)).

(** Lines 220-238. *)
Definition export_invoices (cfg : Config)
    (from_token include_recent_changes : json) : Py Globals json :=
  let params := [] in
  let params := set_if (truthy from_token) "from" from_token params in
  let params := set_if (is_not_none include_recent_changes)
                  "includeRecentChanges" include_recent_changes params in
  make_api_request cfg "GET" "/export/invoices" (Some params) None.

(** Lines 405-415. *)
Definition get_gl_account_by_id (cfg : Config) (account_id : Z) : Py Globals json :=
  make_api_request cfg "GET" ("/gl-accounts/" ++ str_of_int account_id) None None.

(** Lines 418-450. *)
Definition update_gl_account (cfg : Config) (account_id : Z)
    (name number description account_type subtype active : json)
    : Py Globals json :=
  let data := [] in
  let data := set_if (is_not_none name) "name" name data in
  let data := set_if (is_not_none number) "number" number data in
  let data := set_if (is_not_none description) "description" description data in
  let data := set_if (is_not_none account_type) "type" account_type data in
  let data := set_if (is_not_none subtype) "subtype" subtype data in
  let data := set_if (is_not_none active) "active" active data in
  make_api_request cfg "PATCH" ("/gl-accounts/" ++ str_of_int account_id) None
    (Some (JObj data)).

(** Lines 1132-1142. *)
Definition delete_journal_entry (cfg : Config) (journal_entry_id : Z)
    : Py Globals json :=
  make_api_request cfg "DELETE" ("/journal-entries/" ++ str_of_int journal_entry_id)
    None None.

End Accounting.

(* ------------------------------------------------------------------ *)
(** ** servicetitan_crm.py *)

Module Crm.

Definition TOKEN_URL : string := "https://auth.servicetitan.io/connect/token".
Definition CRM_BASE_URL : string := "https://api.servicetitan.io/crm/v2".

Definition env_error : exn :=
  Exception "ERROR_ENV: One or more ServiceTitan environment variables are not set.".

Definition token_request (cfg : Config) : Request :=
  mkRequest "POST" TOKEN_URL
    [("Content-Type", Lit "application/x-www-form-urlencoded")] None
    [("grant_type", Lit "client_credentials");
     ("client_id", Env (CLIENT_ID cfg));
     ("client_secret", Env (CLIENT_SECRET cfg))]
    None.

(** Lines 39-40: what the coroutine does once the response is there. *)
Definition on_response (response : Response) : Py unit json :=
  raise_for_status response ;;
  token_data <- response_json response ;;
  getitem token_data "access_token".

(** The module has no global of its own: the state is [unit]. *)
Definition get_access_token (cfg : Config) : Py unit json :=
  if negb (env_truthy (CLIENT_ID cfg)) || negb (env_truthy (CLIENT_SECRET cfg))
     || negb (env_truthy (APP_KEY cfg)) || negb (env_truthy (TENANT_ID cfg))
  then raise env_error
  else
    response <- send (token_request cfg) ;;
    on_response response.

Definition auth_headers (cfg : Config) (access_token : json)
    : list (string * field_value) :=
  [("Authorization", Bearer access_token); ("ST-App-Key", Env (APP_KEY cfg))].

Definition tags_url (cfg : Config) : string :=
  CRM_BASE_URL ++ "/tenant/" ++ env_str (TENANT_ID cfg) ++ "/booking-provider-tags".

Definition get_booking_provider_tags (cfg : Config)
    (name ids page page_size include_total created_before created_on_or_after
     modified_before modified_on_or_after sort : json) : Py unit json :=
  access_token <- get_access_token cfg ;;
  let params := [] in
  let params := set_if (is_not_none name) "name" name params in
  let params := set_if (is_not_none ids) "ids" ids params in
  let params := set_if (is_not_none page) "page" page params in
  let params := set_if (is_not_none page_size) "pageSize" page_size params in
  let params := set_if (is_not_none include_total) "includeTotal"
                  include_total params in
  let params := set_if (is_not_none created_before) "createdBefore"
                  created_before params in
  let params := set_if (is_not_none created_on_or_after) "createdOnOrAfter"
                  created_on_or_after params in
  let params := set_if (is_not_none modified_before) "modifiedBefore"
                  modified_before params in
  let params := set_if (is_not_none modified_on_or_after) "modifiedOnOrAfter"
                  modified_on_or_after params in
  let params := set_if (is_not_none sort) "sort" sort params in
  response <- send (mkRequest "GET" (tags_url cfg)
                      (auth_headers cfg access_token) (Some params) [] None) ;;
  raise_for_status response ;;
  response_json response.

Definition not_found : json :=
  JObj [("error", JStr "Not found"); ("status_code", JNum 404)].

Definition create_booking_provider_tag (cfg : Config)
    (tag_name description : json) : Py unit json :=
  access_token <- get_access_token cfg ;;
  let body := [("tagName", tag_name)] in
  let body := set_if (is_not_none description) "description" description body in
  response <- send (mkRequest "POST" (tags_url cfg)
                      (auth_headers cfg access_token) None [] (Some (JObj body))) ;;
  if status_code response =? 404
  then ret not_found
  else
    raise_for_status response ;;
    response_json response.

(** Lines 128-152. *)
Definition update_booking_provider_tag (cfg : Config) (id : Z)
    (tag_name description : json) : Py unit json :=
  access_token <- get_access_token cfg ;;
  let body := [] in
  let body := set_if (is_not_none tag_name) "tagName" tag_name body in
  let body := set_if (is_not_none description) "description" description body in
  response <- send (mkRequest "PATCH" (tags_url cfg ++ "/" ++ str_of_int id)
                      (auth_headers cfg access_token) None [] (Some (JObj body))) ;;
  if status_code response =? 404
  then ret not_found
  else
    raise_for_status response ;;
    response_json response.

(** Lines 157-172. *)
Definition get_booking_by_id (cfg : Config) (id : Z) : Py unit json :=
  access_token <- get_access_token cfg ;;
  response <- send (mkRequest "GET"
                      (CRM_BASE_URL ++ "/tenant/" ++ env_str (TENANT_ID cfg)
                       ++ "/bookings/" ++ str_of_int id)
                      (auth_headers cfg access_token) None [] None) ;;
  if status_code response =? 404
  then ret not_found
  else
    raise_for_status response ;;
    response_json response.

End Crm.

(* ------------------------------------------------------------------ *)
(** ** servicetitan_service_agreements.py *)

Module ServiceAgreements.

(** The module reads three values, and refuses to load without them. *)
Record Config : Type := mkConfig {
  API_KEY : option string;
  TENANT_ID : option string;
  APP_KEY : option string
}.

Definition BASE_URL : string := "https://api.servicetitan.io".

Definition HEADERS (cfg : Config) : list (string * field_value) :=
  [("Authorization", Lit ("Bearer " ++ env_str (API_KEY cfg)));
   ("ST-App-Key", Env (APP_KEY cfg));
   ("Content-Type", Lit "application/json")].


(** Lines 107-118. *)
Definition get_service_agreement (cfg : Config) (agreement_id : Z) : Py unit json :=
  let url := (BASE_URL ++ "/service-agreements/v2/tenant/"
              ++ env_str (TENANT_ID cfg) ++ "/service-agreements/"
              ++ str_of_int agreement_id)%string in
  response <- send (mkRequest "GET" url (HEADERS cfg) None [] None) ;;
  response_json response.

End ServiceAgreements.

(* ------------------------------------------------------------------ *)
(** ** servicetitan_core.py *)

Module Core.

Definition TOKEN_URL : string := "https://auth.servicetitan.io/connect/token".

Definition env_error : exn :=
  ValueError "ERROR_ENV: One or more ServiceTitan environment variables are not set.".

Definition token_request (cfg : Config) : Request :=
  mkRequest "POST" TOKEN_URL
    [("Content-Type", Lit "application/x-www-form-urlencoded")] None
    [("grant_type", Lit "client_credentials");
     ("client_id", Env (CLIENT_ID cfg));
     ("client_secret", Env (CLIENT_SECRET cfg))]
    None.

(** [v.get(key)] *)
Definition dict_get {G} (v : json) (key : string) : Py G json :=
  match v with
  | JObj fields =>
      match lookup key fields with
      | Some x => ret x
      | None => ret JNull
      end
  | _ => raise (AttributeError v)
  end.

Definition get_access_token (cfg : Config) : Py unit json :=
  if negb (env_truthy (CLIENT_ID cfg)) || negb (env_truthy (CLIENT_SECRET cfg))
     || negb (env_truthy (APP_KEY cfg)) || negb (env_truthy (TENANT_ID cfg))
  then raise env_error
  else
    response <- send (token_request cfg) ;;
    raise_for_status response ;;
    token_response_json <- response_json response ;;
    access_token <- dict_get token_response_json "access_token" ;;
    if negb (is_str access_token)
    then raise (TypeError (TokenNotStr access_token))
    else ret access_token.

(** [BASE_URL], built from [TENANT_ID] when the module is loaded. *)
Definition BASE_URL (cfg : Config) : string :=
  "https://api.servicetitan.io/crm/v2/tenant/" ++ env_str (TENANT_ID cfg).

(** Lines 52-66; [customer_id] is a [str]. *)
Definition get_customer_by_id (cfg : Config) (customer_id : string) : Py unit json :=
  token <- get_access_token cfg ;;
  let headers := [("Authorization", Bearer token);
                  ("ST-App-Key", Env (APP_KEY cfg))] in
  let url := (BASE_URL cfg ++ "/customers/" ++ customer_id)%string in
  response <- send (mkRequest "GET" url headers None [] None) ;;
  if status_code response =? 404
  then ret (JObj [("error", JStr ("Customer " ++ customer_id ++ " not found"))])
  else
    raise_for_status response ;;
    response_json response.

(** Lines 119-177. *)
Definition get_appointments (cfg : Config)
    (ids job_id project_id number status starts_on_or_after starts_before
     technician_id customer_id unused modified_before modified_on_or_after
     created_on_or_after created_before page page_size include_total sort : json)
    : Py unit json :=
  token <- get_access_token cfg ;;
  let headers := [("Authorization", Bearer token);
                  ("ST-App-Key", Env (APP_KEY cfg))] in
  let url := ("https://api.servicetitan.io/jpm/v2/tenant/"
              ++ env_str (TENANT_ID cfg) ++ "/appointments")%string in
  let params := [("ids", ids);
                 ("jobId", job_id);
                 ("projectId", project_id);
                 ("number", number);
                 ("status", status);
                 ("startsOnOrAfter", starts_on_or_after);
                 ("startsBefore", starts_before);
                 ("technicianId", technician_id);
                 ("customerId", customer_id);
                 ("unused", unused);
                 ("modifiedBefore", modified_before);
                 ("modifiedOnOrAfter", modified_on_or_after);
                 ("createdOnOrAfter", created_on_or_after);
                 ("createdBefore", created_before);
                 ("page", page);
                 ("pageSize", page_size);
                 ("includeTotal", include_total);
                 ("sort", sort)] in
  let clean_params := List.filter (fun kv => is_not_none (snd kv)) params in
  response <- send (mkRequest "GET" url headers (Some clean_params) [] None) ;;
  raise_for_status response ;;
  response_json response.

End Core.

(* ------------------------------------------------------------------ *)
(** ** servicetitan_marketing_ads.py *)

Module MarketingAds.

Definition TOKEN_URL : string := "https://auth.servicetitan.io/connect/token".

(** [BASE_URL], built from [TENANT_ID] when the module is loaded. *)
Definition BASE_URL (cfg : Config) : string :=
  "https://api.servicetitan.io/marketingads/v2/tenant/" ++ env_str (TENANT_ID cfg).

Definition env_error : exn := ValueError "CLIENT_ID and CLIENT_SECRET must be set".

Definition token_request (cfg : Config) : Request :=
  mkRequest "POST" TOKEN_URL
    [("Content-Type", Lit "application/x-www-form-urlencoded")] None
    [("grant_type", Lit "client_credentials");
     ("client_id", Env (CLIENT_ID cfg));
     ("client_secret", Env (CLIENT_SECRET cfg))]
    None.

(** Lines 23-42: only two of the four values are tested. *)
Definition get_access_token (cfg : Config) : Py unit json :=
  if negb (env_truthy (CLIENT_ID cfg)) || negb (env_truthy (CLIENT_SECRET cfg))
  then raise env_error
  else
    response <- send (token_request cfg) ;;
    if negb (status_code response =? 200)
    then raise (Exception ("Failed to get access token: "
                           ++ str_of_int (status_code response)))
    else
      token_data <- response_json response ;;
      getitem token_data "access_token".

(** Lines 44-46. *)
Definition clean_params (params : list (string * json)) : list (string * json) :=
  List.filter (fun kv => is_not_none (snd kv)) params.

Section WithLibraryTexts.

(** The text the interpreter, [json] and [httpx] give to the exceptions
    they raise themselves. *)
Variable library_text : exn -> string.

(** [str(e)] *)
Definition str_exn (e : exn) : string :=
  match e with
  | ValueError msg | Exception msg | TransportError msg => msg
  | KeyError key => "'" ++ key ++ "'"
  | _ => library_text e
  end.

(** Lines 48-83: everything, the call of the helper included, is inside
    [try], and [except Exception] returns a dict. *)
Definition make_request (cfg : Config) (method endpoint : string)
    (params : option (list (string * json))) (json_data : option json)
    : Py unit json :=
  try_except
    (token <- get_access_token cfg ;;
     let headers := [("Authorization", Bearer token);
                     ("ST-App-Key", Env (APP_KEY cfg));
                     ("Content-Type", Lit "application/json")] in
     let url := (BASE_URL cfg ++ endpoint)%string in
     let cleaned_params := match params with
                           | Some (kv :: rest) => Some (clean_params (kv :: rest))
                           | _ => None
                           end in
     response <- (if (method =? "GET")%string
                  then send (mkRequest "GET" url headers cleaned_params [] None)
                  else if (method =? "POST")%string
                  then send (mkRequest "POST" url headers cleaned_params []
                               json_data)
                  else if (method =? "PATCH")%string
                  then send (mkRequest "PATCH" url headers cleaned_params []
                               json_data)
                  else raise (ValueError ("Unsupported HTTP method: " ++ method))) ;;
     if (status_code response =? 200) || (status_code response =? 201)
     then response_json response
     else ret (JObj [("error", JStr ("HTTP " ++ str_of_int (status_code response)));
                     ("message", JStr (text response))]))
    (fun e => ret (JObj [("error", JStr "Request failed");
                         ("message", JStr (str_exn e))])).

(** Lines 128-137. *)
Definition get_capacity_warnings (cfg : Config) : Py unit json :=
  make_request cfg "GET" "/capacity-warnings" None None.

End WithLibraryTexts.

End MarketingAds.

(* ------------------------------------------------------------------ *)
(** ** The wrappers that test for 404

    The shape shared by the wrappers that have the test (crm lines 90-107,
    core lines 54-66): the token, one request built with it, and then
    [if response.status_code == 404: return <dict>] before
    [response.raise_for_status()] and [return response.json()].  The token
    helper, the request and the dict differ from wrapper to wrapper. *)


(* ------------------------------------------------------------------ *)
(** ** Two coroutines in [servicetitan_accounting.get_access_token]

    The event loop runs one coroutine at a time and switches only where a
    coroutine waits: in [get_access_token] that is [await client.post].
    Lines 47-68 (up to the request going out) and lines 69-76 (from the
    response on) are each run without interruption. *)

Module Interleaving.
Import Accounting.

Inductive task : Type :=
| Ready                          (* not started *)
| Waiting (n : nat)              (* suspended on the answer to request n *)
| Done (r : outcome json).

(** Lines 47-68. *)
Definition start (cfg : Config) (s : State Globals) : task * State Globals :=
  if negb (config_ok cfg) then (Done (Raise (env_error cfg)), s)
  else
    let g := globals s in
    let w := world s in
    if cache_hit g (now w) then (Done (Return (_access_token g)), s)
    else (Waiting (List.length (sent w)),
          mkState g (mkWorld (now w) (net w) (sent w ++ [token_request cfg]))).

(** Lines 69-76, on the answer to request [n]. *)
Definition wake (n : nat) (s : State Globals) : task * State Globals :=
  let (o, s') := bind (deliver (result (net (world s) n))) on_response s in
  (Done o, s').

Inductive caller : Type := First | Second.

Definition other (c : caller) : caller :=
  match c with First => Second | Second => First end.

Definition same (c d : caller) : bool :=
  match c, d with
  | First, First | Second, Second => true
  | _, _ => false
  end.

Record System : Type := mkSystem {
  shared : State Globals;
  first : task;
  second : task
}.

Definition task_of (c : caller) (sys : System) : task :=
  match c with First => first sys | Second => second sys end.

Definition update (c : caller) (t : task) (s : State Globals) (sys : System)
    : System :=
  match c with
  | First => mkSystem s t (second sys)
  | Second => mkSystem s (first sys) t
  end.

Inductive event : Type :=
| Start (c : caller)             (* the loop starts c's coroutine *)
| Wake (c : caller)              (* the answer c waits for has arrived *)
| Tick (d : Z).                  (* time passes *)

(** One turn of the event loop; [None] when the event cannot happen. *)
Definition step (cfg : Config) (ev : event) (sys : System) : option System :=
  match ev with
  | Start c =>
      match task_of c sys with
      | Ready => let (t, s) := start cfg (shared sys) in Some (update c t s sys)
      | _ => None
      end
  | Wake c =>
      match task_of c sys with
      | Waiting n => let (t, s) := wake n (shared sys) in Some (update c t s sys)
      | _ => None
      end
  | Tick d =>
      let s := shared sys in
      let w := world s in
      Some (mkSystem (mkState (globals s) (mkWorld (now w + d) (net w) (sent w)))
              (first sys) (second sys))
  end.

Fixpoint run (cfg : Config) (evs : list event) (sys : System) : option System :=
  match evs with
  | [] => Some sys
  | ev :: rest =>
      match step cfg ev sys with
      | Some sys' => run cfg rest sys'
      | None => None
      end
  end.

End Interleaving.

(* ------------------------------------------------------------------ *)
(** ** What an error tells its receiver *)

(** The text of an exception, where it has one. *)
Definition message (e : exn) : string :=
  match e with
  | ValueError msg | Exception msg | TransportError msg => msg
  | _ => ""
  end.

(** [e] lets its receiver read the status code [status]: in its text, or
    in the response an [HTTPStatusError] holds. *)
Definition carries_status (e : exn) (status : Z) : bool :=
  match e with
  | HTTPStatusError r => status_code r =? status
  | _ => contains (str_of_int status) (message e)
  end.

(** [e] lets its receiver read the response body [body]. *)
Definition carries_body (e : exn) (body : string) : bool :=
  match e with
  | HTTPStatusError r => (text r =? body)%string
  | _ => contains body (message e)
  end.

(** The name of each configuration variable, with the value read for it. *)
Definition variables (cfg : Config) : list (string * option string) :=
  [("SERVICE_TITAN_CLIENT_ID", CLIENT_ID cfg);
   ("SERVICE_TITAN_CLIENT_SECRET", CLIENT_SECRET cfg);
   ("SERVICE_TITAN_APP_KEY", APP_KEY cfg);
   ("SERVICE_TITAN_TENANT_ID", TENANT_ID cfg)].

(** The next answer of the peer in state [s]. *)
Definition next_reply {G} (s : State G) : reply :=
  result (net (world s) (List.length (sent (world s)))).

(** [r] is a 200 reply whose document grants [tok] for [n] seconds. *)
Definition grants (r : Response) (tok : json) (n : Z) : Prop :=
  exists fields lifetime,
    status_code r = 200
    /\ json_body r = Some (JObj fields)
    /\ lookup "access_token" fields = Some tok
    /\ lookup "expires_in" fields = Some lifetime
    /\ as_number lifetime = Some n.

(** A float that holds the whole number [z] exactly. *)
Definition exact (z : Z) : Prop := Z.abs z <= 9007199254740992.

(** Line 74 evaluated at clock [t] and lifetime [n] without any rounding:
    the lifetime, the sum and the difference are all held exactly. *)
Definition exact_expiry (t n : Z) : Prop :=
  exact n /\ exact (t + n) /\ exact (t + n - 60).

(** Error statuses: 4xx and 5xx. *)
Definition is_error (status : Z) : bool := (400 <=? status) && (status <=? 599).

(** The request [servicetitan_accounting.make_api_request] puts together
    (lines 87-96) when the token is [token]. *)
Definition api_request (cfg : Config) (token : json) (method endpoint : string)
    (params : option (list (string * json))) (data : option json) : Request :=
  mkRequest method
    (Accounting.API_BASE_URL ++ "/tenant/" ++ env_str (TENANT_ID cfg) ++ endpoint)
    [("Authorization", Bearer token);
     ("ST-App-Key", Env (APP_KEY cfg));
     ("Content-Type", Lit "application/json")]
    params [] data.

(** Reading a decimal numeral back: the inverse of [str_of_int]. *)
Definition int_of_str (s : string) : option Z :=
  option_map Z.of_int (NilZero.int_of_string s).

(** [s] without its first [n] characters. *)
Fixpoint drop (n : nat) (s : string) : string :=
  match n, s with
  | O, _ => s
  | S n', String _ rest => drop n' rest
  | S _, EmptyString => EmptyString
  end.

(* ------------------------------------------------------------------ *)
(** ** Sample inputs *)

Module Sample.

Definition cfg : Config :=
  mkConfig (Some "client-1") (Some "s3cret") (Some "app-key") (Some "4242").

(** As [cfg], with [SERVICE_TITAN_CLIENT_SECRET] unset and
    [SERVICE_TITAN_TENANT_ID] set to the empty string. *)
Definition cfg_incomplete : Config :=
  mkConfig (Some "client-1") None (Some "app-key") (Some "").

(** As [cfg], with [SERVICE_TITAN_APP_KEY] and [SERVICE_TITAN_TENANT_ID]
    unset. *)
Definition cfg_without_tenant : Config :=
  mkConfig (Some "client-1") (Some "s3cret") None None.

Definition token_document (tok : json) (lifetime : json) : json :=
  JObj [("access_token", tok); ("token_type", JStr "Bearer");
        ("expires_in", lifetime)].

Definition granted (tok : string) (lifetime : Z) : Response :=
  mkResponse 200 "(token document)"
    (Some (token_document (JStr tok) (JNum lifetime))).

Definition refused (status : Z) : Response :=
  mkResponse status "invalid_client" None.

(** A peer that grants [tok-a] to the first request and answers 404 to
    every later one. *)
Definition tag_peer (n : nat) : NetEvent :=
  match n with
  | O => mkNetEvent 2 (Replied (granted "tok-a" 120))
  | _ => mkNetEvent 1 (Replied (mkResponse 404 "(no such tag)" None))
  end.

(** A 500 response with a JSON body. *)
Definition server_error : Response :=
  mkResponse 500 "(problem document)"
    (Some (JObj [("title", JStr "Internal Server Error"); ("status", JNum 500)])).

Definition sa_cfg : ServiceAgreements.Config :=
  ServiceAgreements.mkConfig (Some "api-key") (Some "4242") (Some "app-key").

(** A 200 response whose [access_token] is a number. *)
Definition numeric_grant : Response :=
  mkResponse 200 "(token document)"
    (Some (token_document (JNum 12345) (JNum 3600))).

(** A peer that grants token [tok-a] for 120 s, then [tok-b] for 3600 s,
    and refuses from then on; every round trip takes 2 s. *)
Definition peer (n : nat) : NetEvent :=
  match n with
  | O => mkNetEvent 2 (Replied (granted "tok-a" 120))
  | S O => mkNetEvent 2 (Replied (granted "tok-b" 3600))
  | _ => mkNetEvent 2 (Replied (refused 401))
  end.

(** A peer that refuses every request with [status]. *)
Definition refusing (status : Z) (n : nat) : NetEvent :=
  mkNetEvent 1 (Replied (refused status)).

(** A peer that answers every request with [r]. *)
Definition always (r : Response) (n : nat) : NetEvent :=
  mkNetEvent 1 (Replied r).

Definition at_time (t : Z) (answers : nat -> NetEvent) : World :=
  mkWorld t answers [].

(** The accounting globals after one fetch at time 1000 from [peer]:
    the round trip ends at 1002, the token is good until 1002 + 120. *)
Definition warm : Accounting.Globals := Accounting.mkGlobals (JStr "tok-a") 1062.

End Sample.

(* ------------------------------------------------------------------ *)
(** ** Laws of the monad and of the primitives *)

Lemma bind_ret {G A B} (a : A) (k : A -> Py G B) s : bind (ret a) k s = k a s.
Proof. reflexivity. Qed.

Lemma bind_raise {G A B} (e : exn) (k : A -> Py G B) s :
  bind (raise e) k s = (Raise e, s).
Proof. reflexivity. Qed.

Lemma bind_assoc {G A B C} (m : Py G A) (k : A -> Py G B) (h : B -> Py G C) s :
  bind (bind m k) h s = bind m (fun a => bind (k a) h) s.
Proof.
  unfold bind. destruct (m s) as [[a | e] s1]; reflexivity.
Qed.

(** A request that goes out is logged, whatever comes back. *)
Lemma send_logs {G} (req : Request) (s : State G) o s' :
  send req s = (o, s') ->
  sent (world s') = sent (world s) ++ [req] /\ globals s' = globals s.
Proof.
  unfold send, deliver, after_round_trip.
  destruct (result _); cbn; intros H; inversion H; auto.
Qed.

Lemma bind_raises {G A B} (m : Py G A) (k : A -> Py G B) s e s' :
  m s = (Raise e, s') -> bind m k s = (Raise e, s').
Proof. unfold bind. intros ->. reflexivity. Qed.

Lemma bind_returns {G A B} (m : Py G A) (k : A -> Py G B) s a s' :
  m s = (Return a, s') -> bind m k s = k a s'.
Proof. unfold bind. intros ->. reflexivity. Qed.

(** [send] followed by [k], when the peer answers. *)
Lemma send_answered {G A} (req : Request) (k : Response -> Py G A) s r :
  next_reply s = Replied r ->
  bind (send req) k s = k r (after_round_trip req s).
Proof.
  unfold bind, send, next_reply. intros ->. reflexivity.
Qed.

(** [send] followed by [k]: either the transport fails, or [k] runs on the
    reply in the state the round trip leaves. *)
Lemma send_then {G A} (req : Request) (k : Response -> Py G A) s o s' :
  bind (send req) k s = (o, s') ->
  (exists msg, next_reply s = Failed msg
               /\ o = Raise (TransportError msg)
               /\ s' = after_round_trip req s)
  \/ (exists r, next_reply s = Replied r
                /\ k r (after_round_trip req s) = (o, s')).
Proof.
  unfold bind, send, next_reply, deliver.
  destruct (result _) as [r | msg]; cbn.
  - intros H. right. exists r. auto.
  - intros H. inversion H; subst. left. exists msg. auto.
Qed.

(** [send] followed by a continuation that leaves the state alone. *)
Lemma send_then_state {G A} (req : Request) (k : Response -> Py G A) s o s' :
  (forall r st o' st', k r st = (o', st') -> st' = st) ->
  bind (send req) k s = (o, s') ->
  s' = after_round_trip req s.
Proof.
  intros Hpure H.
  destruct (send_then _ _ _ _ _ H) as [(msg & _ & _ & Hs) | (r & _ & Hk)];
    [exact Hs | exact (Hpure _ _ _ _ Hk)].
Qed.


(* ------------------------------------------------------------------ *)
(** ** Double precision on whole numbers *)

Lemma double_range : 9007199254740992 < 2 ^ 1024.
Proof.
  change 9007199254740992 with (2 ^ 53). apply Z.pow_lt_mono_r; lia.
Qed.

Lemma round_to_double_exact z : exact z -> round_to_double z = z.
Proof.
  unfold exact, round_to_double. intros H.
  apply Z.leb_le in H. now rewrite H.
Qed.

Lemma float_of_int_exact n : exact n -> float_of_int n = Some n.
Proof.
  intros H. unfold float_of_int. rewrite (round_to_double_exact _ H).
  pose proof double_range. unfold exact in H.
  destruct (Z.leb_spec (2 ^ 1024) (Z.abs n)); [lia | reflexivity].
Qed.

Lemma float_add_exact a b : exact (a + b) -> float_add a b = a + b.
Proof.
  intros H. unfold float_add. rewrite (round_to_double_exact _ H).
  pose proof double_range. unfold exact in H.
  destruct (Z.leb_spec (2 ^ 1024) (a + b)); [lia |].
  destruct (Z.leb_spec (a + b) (- 2 ^ 1024)); [lia | reflexivity].
Qed.

(** Line 74 without rounding. *)
Lemma expiry_exact t n :
  exact_expiry t n ->
  float_of_int n = Some n /\ float_add (float_add t n) (-60) = t + n - 60.
Proof.
  intros (Hn & Hsum & Hdiff). split; [apply (float_of_int_exact _ Hn) |].
  rewrite (float_add_exact t n Hsum). apply float_add_exact. exact Hdiff.
Qed.






(* ------------------------------------------------------------------ *)
(** ** servicetitan_accounting.get_access_token, case by case *)

Module AccountingFacts.
Import Accounting.

Lemma missing_config cfg s :
  config_ok cfg = false ->
  get_access_token cfg s = (Raise (env_error cfg), s).
Proof. unfold get_access_token. intros ->. reflexivity. Qed.

Lemma hit cfg s :
  config_ok cfg = true ->
  cache_hit (globals s) (now (world s)) = true ->
  get_access_token cfg s = (Return (_access_token (globals s)), s).
Proof.
  unfold get_access_token. intros -> H. cbn. rewrite H. reflexivity.
Qed.

Lemma miss cfg s :
  config_ok cfg = true ->
  cache_hit (globals s) (now (world s)) = false ->
  get_access_token cfg s = bind (send (token_request cfg)) on_response s.
Proof.
  unfold get_access_token. intros -> H. cbn. rewrite H. reflexivity.
Qed.

Lemma refused r s :
  status_code r <> 200 ->
  on_response r s = (Raise (auth_failed r), s).
Proof.
  intros H. unfold on_response.
  destruct (Z.eqb_spec (status_code r) 200); [contradiction | reflexivity].
Qed.

(** A 200 reply with a token and a lifetime that converts to a float:
    the token is returned, and stored with the expiry line 74 computes. *)
Lemma stored_rounded r s fields tok lifetime n x :
  status_code r = 200 ->
  json_body r = Some (JObj fields) ->
  lookup "access_token" fields = Some tok ->
  lookup "expires_in" fields = Some lifetime ->
  as_number lifetime = Some n ->
  float_of_int n = Some x ->
  on_response r s =
  (Return tok,
   mkState (mkGlobals tok (float_add (float_add (now (world s)) x) (-60)))
     (world s)).
Proof.
  intros Hs Hb Ht He Hn Hx. unfold on_response, response_json.
  rewrite Hs, Hb. cbn. rewrite Ht. cbn. rewrite He. cbn.
  unfold add_number. rewrite Hn, Hx. reflexivity.
Qed.

Lemma stored r s fields tok lifetime n :
  status_code r = 200 ->
  json_body r = Some (JObj fields) ->
  lookup "access_token" fields = Some tok ->
  lookup "expires_in" fields = Some lifetime ->
  as_number lifetime = Some n ->
  exact_expiry (now (world s)) n ->
  on_response r s =
  (Return tok, mkState (mkGlobals tok (now (world s) + n - 60)) (world s)).
Proof.
  intros Hs Hb Ht He Hn Hex. destruct (expiry_exact _ _ Hex) as [Hx Hsum].
  rewrite (stored_rounded _ _ _ _ _ _ _ Hs Hb Ht He Hn Hx), Hsum. reflexivity.
Qed.

(** The only way [on_response] returns. *)
Lemma returned r s v s' :
  on_response r s = (Return v, s') ->
  exists fields lifetime n x,
    status_code r = 200 /\ json_body r = Some (JObj fields)
    /\ lookup "access_token" fields = Some v
    /\ lookup "expires_in" fields = Some lifetime
    /\ as_number lifetime = Some n
    /\ float_of_int n = Some x
    /\ s' = mkState
              (mkGlobals v (float_add (float_add (now (world s)) x) (-60)))
              (world s).
Proof.
  unfold on_response, response_json.
  destruct (Z.eqb_spec (status_code r) 200) as [Hs | Hs]; cbn; [| discriminate].
  destruct (json_body r) as [[ | b | k | str | items | fields] | ]; cbn;
    try discriminate.
  destruct (lookup "access_token" fields) as [tok | ] eqn:Ht; cbn;
    [| discriminate].
  destruct (lookup "expires_in" fields) as [lifetime | ] eqn:He; cbn;
    [| discriminate].
  unfold add_number.
  destruct (as_number lifetime) as [n | ] eqn:Hn; cbn; [| discriminate].
  destruct (float_of_int n) as [x | ] eqn:Hx; cbn; [| discriminate].
  intros H. inversion H; subst. exists fields, lifetime, n, x.
  repeat split; assumption.
Qed.

(** Whatever [on_response] does, it sends nothing. *)
Lemma on_response_silent r s o s' :
  on_response r s = (o, s') -> world s' = world s.
Proof.
  unfold on_response, response_json.
  destruct (status_code r =? 200); cbn; [| now inversion 1].
  destruct (json_body r) as [[ | b | k | str | items | fields] | ]; cbn;
    try now inversion 1.
  destruct (lookup "access_token" fields) as [tok | ]; cbn;
    [| now inversion 1].
  destruct (lookup "expires_in" fields) as [lifetime | ]; cbn;
    [| now inversion 1].
  unfold add_number.
  destruct (as_number lifetime) as [n | ]; cbn; [| now inversion 1].
  destruct (float_of_int n) as [x | ]; cbn; now inversion 1.
Qed.

(** A token in the cache means the configuration is complete. *)
Lemma cached_config cfg g :
  reachable cfg g -> truthy (_access_token g) = true -> config_ok cfg = true.
Proof.
  induction 1 as [ | g w o s' Hr IH Hcall]; intros Ht.
  - discriminate.
  - destruct (config_ok cfg) eqn:Hc; [reflexivity |].
    rewrite (missing_config _ _ Hc) in Hcall. inversion Hcall; subst.
    apply IH, Ht.
Qed.

Lemma warm_reachable : reachable Sample.cfg Sample.warm.
Proof.
  exact (reach_call Sample.cfg initial (Sample.at_time 1000 Sample.peer)
           _ _ (reach_initial _) eq_refl).
Qed.

End AccountingFacts.

(* ------------------------------------------------------------------ *)
(** ** Facts about strings *)

Lemma prefix_refl (x : string) : String.prefix x x = true.
Proof.
  induction x as [ | a x IH]; cbn; [reflexivity |].
  destruct (ascii_dec a a); [exact IH | contradiction].
Qed.

Lemma contains_suffix (p x : string) : contains x (p ++ x)%string = true.
Proof.
  induction p as [ | a p IH]; cbn [append].
  - destruct x; cbn [contains]; rewrite prefix_refl; reflexivity.
  - cbn [contains]. rewrite IH. apply Bool.orb_true_r.
Qed.

(* ------------------------------------------------------------------ *)
(** ** The token cache of servicetitan_accounting.py *)

Module TokenCache.
Import Accounting AccountingFacts.

(** A call that sent something had a complete configuration and missed
    the cache. *)
Lemma fetched cfg s o s' :
  get_access_token cfg s = (o, s') ->
  sent (world s') <> sent (world s) ->
  config_ok cfg = true
  /\ cache_hit (globals s) (now (world s)) = false
  /\ bind (send (token_request cfg)) on_response s = (o, s').
Proof.
  intros Hcall Hsent.
  destruct (config_ok cfg) eqn:Hc.
  - destruct (cache_hit (globals s) (now (world s))) eqn:Hh.
    + rewrite (hit _ _ Hc Hh) in Hcall. inversion Hcall; subst.
      contradiction.
    + rewrite (miss _ _ Hc Hh) in Hcall. auto.
  - rewrite (missing_config _ _ Hc) in Hcall. inversion Hcall; subst.
    contradiction.
Qed.

(** A fetch, step by step: the request is logged, the clock moves on by
    the round trip, and [on_response] runs on the reply. *)
Lemma fetch_steps cfg (s : State Globals) o s' :
  bind (send (token_request cfg)) on_response s = (o, s') ->
  sent (world s') = sent (world s) ++ [token_request cfg]
  /\ ((exists msg, next_reply s = Failed msg /\ o = Raise (TransportError msg)
                   /\ globals s' = globals s)
      \/ (exists r s1, next_reply s = Replied r
                       /\ globals s1 = globals s
                       /\ world s1 = world s'
                       /\ on_response r s1 = (o, s'))).
Proof.
  intros H. destruct (send_then _ _ _ _ _ H) as [(msg & Hm & Ho & Hs) | (r & Hr & Hk)].
  - subst s'. split; [reflexivity |]. left. exists msg. auto.
  - pose proof (on_response_silent _ _ _ _ Hk) as Hw. rewrite Hw.
    split; [reflexivity |]. right.
    exists r, (after_round_trip (token_request cfg) s).
    repeat split; solve [symmetry; exact Hw | assumption].
Qed.






(** C3, as stated, fails: the error raised on a 401 reply whose body is
    [invalid_client] has the text [Failed to get access token: 401],
    which gives the status and not the body. *)
Lemma auth_error_omits_response_body :
  ~ (forall cfg s o s' r,
        get_access_token cfg s = (o, s') ->
        sent (world s') <> sent (world s) ->
        next_reply s = Replied r ->
        is_success (status_code r) = false ->
        exists e,
          o = Raise e
          /\ carries_status e (status_code r) = true
          /\ carries_body e (text r) = true
          /\ globals s' = globals s).
Proof.
  intros claim.
  destruct (claim Sample.cfg
              (mkState Sample.warm (Sample.at_time 2000 (Sample.refusing 401)))
              _ _ (Sample.refused 401) eq_refl)
    as (e & He & _ & Hbody & _).
  - cbn. discriminate.
  - reflexivity.
  - reflexivity.
  - inversion He; subst e. vm_compute in Hbody. discriminate.
Qed.

(** C3, amended. Whenever a call posts a token request and the reply has
    a status other than 200 (every non-success status is one), the call
    raises [Exception] with the text [Failed to get access token: ]
    followed by the status code, and leaves the two globals as they
    were: a token cached before is still there. *)
Theorem auth_failure_reports_status_and_keeps_cache cfg s o s' r :
  get_access_token cfg s = (o, s') ->
  sent (world s') <> sent (world s) ->
  next_reply s = Replied r ->
  status_code r <> 200 ->
  o = Raise (Exception ("Failed to get access token: "
                        ++ str_of_int (status_code r)))
  /\ carries_status (auth_failed r) (status_code r) = true
  /\ globals s' = globals s
  /\ sent (world s') = sent (world s) ++ [token_request cfg].
Proof.
  intros Hcall Hsent Hr Hst.
  destruct (fetched _ _ _ _ Hcall Hsent) as (_ & _ & Hf).
  destruct (fetch_steps _ _ _ _ Hf)
    as [Hlog [(msg & Hm & _) | (r' & s1 & Hr' & Hg & Hw & Hon)]].
  - rewrite Hr in Hm. discriminate.
  - rewrite Hr in Hr'. inversion Hr'; subst r'.
    rewrite (refused _ _ Hst) in Hon. inversion Hon; subst.
    repeat split; try assumption.
    unfold carries_status, auth_failed, message. apply contains_suffix.
Qed.

Lemma auth_failure_reports_status_and_keeps_cache_witness :
  Raise (A := json) (Exception "Failed to get access token: 401")
  = Raise (Exception ("Failed to get access token: " ++ str_of_int 401))
  /\ carries_status (auth_failed (Sample.refused 401)) 401 = true
  /\ Sample.warm = Sample.warm
  /\ [token_request Sample.cfg] = [] ++ [token_request Sample.cfg].
Proof.
  apply (auth_failure_reports_status_and_keeps_cache Sample.cfg
           (mkState Sample.warm (Sample.at_time 2000 (Sample.refusing 401)))
           (Raise (Exception "Failed to get access token: 401"))
           (mkState Sample.warm
              (mkWorld 2001 (Sample.refusing 401) [token_request Sample.cfg]))
           (Sample.refused 401)).
  - reflexivity.
  - cbn. discriminate.
  - reflexivity.
  - cbn. lia.
Defined.

(** C5 fails on the code: a 200 reply whose [access_token] is the number
    12345 is stored in the cache and returned by the accounting helper,
    where the helper of servicetitan_core.py raises [TypeError] on the
    same reply. *)
Theorem non_string_token_is_stored_and_returned :
  get_access_token Sample.cfg
    (mkState initial (Sample.at_time 1000 (Sample.always Sample.numeric_grant)))
  = (Return (JNum 12345),
     mkState (mkGlobals (JNum 12345) 4541)
       (mkWorld 1001 (Sample.always Sample.numeric_grant)
          [token_request Sample.cfg]))
  /\ Core.get_access_token Sample.cfg
       (mkState tt (Sample.at_time 1000 (Sample.always Sample.numeric_grant)))
     = (Raise (TypeError (TokenNotStr (JNum 12345))),
        mkState tt
          (mkWorld 1001 (Sample.always Sample.numeric_grant)
             [Core.token_request Sample.cfg])).
Proof. split; reflexivity. Qed.

(** The half of C5 the code has: without an [access_token] key the call
    raises [KeyError] and the globals stay as they were. *)
Lemma missing_token_key_raises r s fields :
  status_code r = 200 ->
  json_body r = Some (JObj fields) ->
  lookup "access_token" fields = None ->
  on_response r s = (Raise (KeyError "access_token"), s).
Proof.
  intros Hs Hb Hk. unfold on_response, response_json.
  rewrite Hs, Hb. cbn. rewrite Hk. reflexivity.
Qed.




End TokenCache.

(* ------------------------------------------------------------------ *)
(** ** Missing configuration *)

Module Configuration.

(** The test of servicetitan_crm.py (and servicetitan_core.py) is the
    negation of the [all] of servicetitan_accounting.py. *)
Lemma any_missing cfg :
  negb (env_truthy (CLIENT_ID cfg)) || negb (env_truthy (CLIENT_SECRET cfg))
  || negb (env_truthy (APP_KEY cfg)) || negb (env_truthy (TENANT_ID cfg))
  = negb (config_ok cfg).
Proof.
  unfold config_ok.
  destruct (env_truthy (CLIENT_ID cfg)), (env_truthy (CLIENT_SECRET cfg)),
    (env_truthy (APP_KEY cfg)), (env_truthy (TENANT_ID cfg)); reflexivity.
Qed.

Lemma crm_missing_config cfg s :
  config_ok cfg = false ->
  Crm.get_access_token cfg s = (Raise Crm.env_error, s).
Proof.
  intros Hc. unfold Crm.get_access_token. rewrite any_missing, Hc. reflexivity.
Qed.

Lemma crm_fetch cfg s :
  config_ok cfg = true ->
  Crm.get_access_token cfg s
  = bind (send (Crm.token_request cfg)) Crm.on_response s.
Proof.
  intros Hc. unfold Crm.get_access_token. rewrite any_missing, Hc. reflexivity.
Qed.

(** The text of the accounting error names a variable exactly when the
    value read for it is missing or empty. *)
Lemma accounting_error_names cfg name value :
  In (name, value) (variables cfg) ->
  contains name (message (Accounting.env_error cfg)) = negb (env_truthy value).
Proof.
  unfold variables, Accounting.env_error, Accounting.missing_vars, message.
  intros Hin. cbn [In] in Hin.
  destruct Hin as [H | [H | [H | [H | []]]]]; inversion H; subst name value;
    destruct (env_truthy (CLIENT_ID cfg)), (env_truthy (CLIENT_SECRET cfg)),
      (env_truthy (APP_KEY cfg)), (env_truthy (TENANT_ID cfg));
    vm_compute; reflexivity.
Qed.

(** C4, as stated, fails for servicetitan_crm.py: with
    [SERVICE_TITAN_CLIENT_SECRET] unset the error it raises does not name
    that variable. *)
Lemma crm_error_names_no_variable :
  ~ (forall cfg s name value,
        In (name, value) (variables cfg) ->
        env_truthy value = false ->
        exists e,
          Crm.get_access_token cfg s = (Raise e, s)
          /\ contains name (message e) = true).
Proof.
  intros claim.
  destruct (claim Sample.cfg_incomplete
              (mkState tt (Sample.at_time 1000 Sample.peer))
              "SERVICE_TITAN_CLIENT_SECRET" None)
    as (e & He & Hname).
  - cbn. auto.
  - reflexivity.
  - inversion He; subst e. vm_compute in Hname. discriminate.
Qed.

Lemma core_missing_config cfg s :
  config_ok cfg = false ->
  Core.get_access_token cfg s = (Raise Core.env_error, s).
Proof.
  intros Hc. unfold Core.get_access_token. rewrite any_missing, Hc. reflexivity.
Qed.

(** servicetitan_marketing_ads.py tests two of the four values. *)
Lemma ads_missing_config cfg s :
  env_truthy (CLIENT_ID cfg) = false \/ env_truthy (CLIENT_SECRET cfg) = false ->
  MarketingAds.get_access_token cfg s = (Raise MarketingAds.env_error, s).
Proof.
  unfold MarketingAds.get_access_token.
  intros [H | H]; rewrite H; [| rewrite Bool.orb_true_r]; reflexivity.
Qed.

Lemma ads_fetch cfg s o s' :
  env_truthy (CLIENT_ID cfg) = true ->
  env_truthy (CLIENT_SECRET cfg) = true ->
  MarketingAds.get_access_token cfg s = (o, s') ->
  s' = after_round_trip (MarketingAds.token_request cfg) s.
Proof.
  intros Hid Hsecret Hcall. unfold MarketingAds.get_access_token in Hcall.
  rewrite Hid, Hsecret in Hcall. cbn [negb orb] in Hcall.
  apply send_then_state in Hcall; [exact Hcall |].
  intros r st o' st'. unfold bind, response_json, getitem.
  destruct (status_code r =? 200); cbn; [| now inversion 1].
  destruct (json_body r) as [[ | b | k | str | items | fields] | ]; cbn;
    try now inversion 1.
  destruct (lookup "access_token" fields); now inversion 1.
Qed.

(** C4, amended. What a missing value does depends on the module.
    In servicetitan_accounting.py, servicetitan_crm.py and
    servicetitan_core.py the helper tests all four values: when any of
    them is missing or empty the call fails and the state is what it was
    (nothing is sent, the cache is untouched).  The accounting error is a
    [ValueError] whose text lists the missing variables: it names a
    variable exactly when that one is missing or empty.  The crm error is
    an [Exception] and the core error a [ValueError], both with one fixed
    text that names no variable.  In servicetitan_marketing_ads.py the
    helper tests [CLIENT_ID] and [CLIENT_SECRET] only: when one of these
    is missing or empty the call fails, nothing sent, with a [ValueError]
    of fixed text; when both are there the call posts its token request,
    whether or not [APP_KEY] and [TENANT_ID] are set. *)
Theorem configuration_errors_by_module cfg :
  (config_ok cfg = false ->
   (forall s,
       Accounting.get_access_token cfg s
       = (Raise (ValueError
                   ("ERROR_ENV: Missing ServiceTitan environment variables: "
                    ++ join ", " (Accounting.missing_vars cfg))), s))
   /\ (forall name value,
          In (name, value) (variables cfg) ->
          (contains name (message (Accounting.env_error cfg)) = true
           <-> env_truthy value = false))
   /\ (forall s,
          Crm.get_access_token cfg s
          = (Raise (Exception
                      "ERROR_ENV: One or more ServiceTitan environment variables are not set."),
             s))
   /\ (forall s,
          Core.get_access_token cfg s
          = (Raise (ValueError
                      "ERROR_ENV: One or more ServiceTitan environment variables are not set."),
             s)))
  /\ (env_truthy (CLIENT_ID cfg) = false \/ env_truthy (CLIENT_SECRET cfg) = false ->
      forall s,
        MarketingAds.get_access_token cfg s
        = (Raise (ValueError "CLIENT_ID and CLIENT_SECRET must be set"), s))
  /\ (env_truthy (CLIENT_ID cfg) = true ->
      env_truthy (CLIENT_SECRET cfg) = true ->
      forall s o s',
        MarketingAds.get_access_token cfg s = (o, s') ->
        sent (world s') = sent (world s) ++ [MarketingAds.token_request cfg]).
Proof.
  split; [| split].
  - intros Hc. split; [| split; [| split]].
    + intros s. apply (AccountingFacts.missing_config _ _ Hc).
    + intros name value Hin. rewrite (accounting_error_names _ _ _ Hin).
      destruct (env_truthy value); cbn; split; congruence.
    + intros s. apply (crm_missing_config _ _ Hc).
    + intros s. apply (core_missing_config _ _ Hc).
  - intros Hmissing s. apply (ads_missing_config _ _ Hmissing).
  - intros Hid Hsecret s o s' Hcall.
    rewrite (ads_fetch _ _ _ _ Hid Hsecret Hcall). reflexivity.
Qed.

Lemma configuration_errors_by_module_witness :
  (forall s,
      Accounting.get_access_token Sample.cfg_incomplete s
      = (Raise (ValueError
                  ("ERROR_ENV: Missing ServiceTitan environment variables: "
                   ++ join ", " (Accounting.missing_vars Sample.cfg_incomplete))),
         s))
  /\ (forall s,
         Crm.get_access_token Sample.cfg_incomplete s
         = (Raise (Exception
                     "ERROR_ENV: One or more ServiceTitan environment variables are not set."),
            s))
  /\ (forall s,
         Core.get_access_token Sample.cfg_incomplete s
         = (Raise (ValueError
                     "ERROR_ENV: One or more ServiceTitan environment variables are not set."),
            s))
  /\ (forall s,
         MarketingAds.get_access_token Sample.cfg_incomplete s
         = (Raise (ValueError "CLIENT_ID and CLIENT_SECRET must be set"), s))
  /\ sent (world (mkState tt
                    (mkWorld 1001 (Sample.refusing 401)
                       [MarketingAds.token_request Sample.cfg_without_tenant])))
     = [] ++ [MarketingAds.token_request Sample.cfg_without_tenant].
Proof.
  destruct (configuration_errors_by_module Sample.cfg_incomplete)
    as (Hfour & Hads & _).
  destruct (Hfour eq_refl) as (Haccounting & _ & Hcrm & Hcore).
  destruct (configuration_errors_by_module Sample.cfg_without_tenant)
    as (_ & _ & Hposts).
  split; [exact Haccounting |]. split; [exact Hcrm |]. split; [exact Hcore |].
  split; [exact (Hads (or_intror eq_refl)) |].
  apply (Hposts eq_refl eq_refl
           (mkState tt (Sample.at_time 1000 (Sample.refusing 401)))
           (Raise (Exception "Failed to get access token: 401"))).
  reflexivity.
Defined.

(** What the accounting error says for [Sample.cfg_incomplete]. *)
Example incomplete_message :
  message (Accounting.env_error Sample.cfg_incomplete)
  = "ERROR_ENV: Missing ServiceTitan environment variables: SERVICE_TITAN_CLIENT_SECRET, SERVICE_TITAN_TENANT_ID".
Proof. reflexivity. Qed.

End Configuration.

(* ------------------------------------------------------------------ *)
(** ** One request per fetch *)

Module SingleAttempt.

(** The helper of servicetitan_crm.py changes nothing once the reply is
    there. *)
Lemma crm_on_response_pure r s o s' :
  Crm.on_response r s = (o, s') -> s' = s.
Proof.
  unfold Crm.on_response, raise_for_status, response_json, getitem.
  destruct (is_success (status_code r)); cbn; [| now inversion 1].
  destruct (json_body r) as [[ | b | k | str | items | fields] | ]; cbn;
    try now inversion 1.
  destruct (lookup "access_token" fields); cbn; now inversion 1.
Qed.

Lemma crm_returned r s v s' :
  Crm.on_response r s = (Return v, s') ->
  exists fields,
    is_success (status_code r) = true
    /\ json_body r = Some (JObj fields)
    /\ lookup "access_token" fields = Some v.
Proof.
  unfold Crm.on_response, raise_for_status, response_json, getitem.
  destruct (is_success (status_code r)); cbn; [| discriminate].
  destruct (json_body r) as [[ | b | k | str | items | fields] | ]; cbn;
    try discriminate.
  destruct (lookup "access_token" fields) eqn:Hk; cbn; [| discriminate].
  intros H. inversion H; subst. exists fields. auto.
Qed.

Lemma crm_granted r s fields tok :
  is_success (status_code r) = true ->
  json_body r = Some (JObj fields) ->
  lookup "access_token" fields = Some tok ->
  Crm.on_response r s = (Return tok, s).
Proof.
  intros Hs Hb Hk.
  unfold Crm.on_response, raise_for_status, response_json, getitem.
  rewrite Hs. cbn. rewrite Hb. cbn. rewrite Hk. reflexivity.
Qed.

(** Every call of the crm helper with a complete configuration sends
    exactly the token request, and ends in the state the round trip
    leaves. *)
Lemma crm_call cfg s o s' :
  config_ok cfg = true ->
  Crm.get_access_token cfg s = (o, s') ->
  s' = after_round_trip (Crm.token_request cfg) s
  /\ ((exists msg, next_reply s = Failed msg /\ o = Raise (TransportError msg))
      \/ (exists r, next_reply s = Replied r
                    /\ Crm.on_response r s' = (o, s'))).
Proof.
  intros Hc Hcall. rewrite (Configuration.crm_fetch _ _ Hc) in Hcall.
  destruct (send_then _ _ _ _ _ Hcall) as [(msg & Hm & Ho & Hs) | (r & Hr & Hk)].
  - split; [exact Hs |]. left. exists msg. auto.
  - pose proof (crm_on_response_pure _ _ _ _ Hk) as Hs. split; [exact Hs |].
    right. exists r. rewrite Hs at 1. auto.
Qed.

(** The helper of servicetitan_marketing_ads.py, when its two values are
    there: one token request, whatever comes back. *)
Lemma ads_call cfg s o s' :
  config_ok cfg = true ->
  MarketingAds.get_access_token cfg s = (o, s') ->
  s' = after_round_trip (MarketingAds.token_request cfg) s.
Proof.
  intros Hc Hcall. unfold config_ok in Hc.
  destruct (env_truthy (CLIENT_ID cfg)) eqn:Hid; [| discriminate].
  destruct (env_truthy (CLIENT_SECRET cfg)) eqn:Hsecret; [| discriminate].
  exact (Configuration.ads_fetch _ _ _ _ Hid Hsecret Hcall).
Qed.

(** [make_request] turns an error of the helper into a dict. *)
Lemma ads_wrapper_catches library_text cfg m endpoint ps d s e s1 :
  MarketingAds.get_access_token cfg s = (Raise e, s1) ->
  MarketingAds.make_request library_text cfg m endpoint ps d s
  = (Return (JObj [("error", JStr "Request failed");
                   ("message", JStr (MarketingAds.str_exn library_text e))]),
     s1).
Proof.
  intros H. unfold MarketingAds.make_request, try_except.
  rewrite (bind_raises _ _ _ _ _ H). reflexivity.
Qed.

(** C7, as stated, fails: not every wrapper lets the helper's error
    through.  In servicetitan_marketing_ads.py the helper is called inside
    the [try] of [make_request]; when the token endpoint answers 401 the
    tool [get_capacity_warnings] does not raise, it returns a dict. *)
Lemma marketing_ads_tool_returns_on_helper_error :
  ~ (forall library_text cfg s e s1,
        MarketingAds.get_access_token cfg s = (Raise e, s1) ->
        MarketingAds.get_capacity_warnings library_text cfg s = (Raise e, s1)).
Proof.
  intros claim.
  pose proof (claim (fun _ => "") Sample.cfg
                (mkState tt (Sample.at_time 1000 (Sample.refusing 401)))
                _ _ eq_refl) as H.
  vm_compute in H. discriminate.
Qed.

(** C7, amended. With the configuration the operation requires, a call
    that starts with no cached token issues exactly one request, the POST
    to the authentication endpoint.  If the call returns, what it returns
    is the [access_token] of the reply to that request, and a 200 reply
    with an [access_token] (and, in the accounting helper, an
    [expires_in] that converts to a float) makes it return.  If the call
    raises, nothing more is sent.  The wrappers of
    servicetitan_accounting.py and servicetitan_crm.py then raise the same
    error in the same state; [make_request] of
    servicetitan_marketing_ads.py, and the tools built on it, catch the
    error and return a dict with [error] and [message] instead. *)
Theorem cold_start_posts_exactly_once cfg :
  config_ok cfg = true ->
  (forall g w o s',
      truthy (Accounting._access_token g) = false ->
      Accounting.get_access_token cfg (mkState g w) = (o, s') ->
      sent (world s') = sent w ++ [Accounting.token_request cfg]
      /\ method (Accounting.token_request cfg) = "POST"
      /\ url (Accounting.token_request cfg)
         = "https://auth.servicetitan.io/connect/token"
      /\ (forall v, o = Return v ->
            exists r fields,
              next_reply (mkState g w) = Replied r
              /\ json_body r = Some (JObj fields)
              /\ lookup "access_token" fields = Some v)
      /\ (forall r fields tok lifetime n x,
            next_reply (mkState g w) = Replied r ->
            status_code r = 200 ->
            json_body r = Some (JObj fields) ->
            lookup "access_token" fields = Some tok ->
            lookup "expires_in" fields = Some lifetime ->
            as_number lifetime = Some n ->
            float_of_int n = Some x ->
            o = Return tok)
      /\ (forall e, o = Raise e ->
            (forall m endpoint ps d,
                Accounting.make_api_request cfg m endpoint ps d (mkState g w)
                = (Raise e, s'))
            /\ (forall a1 a2 a3 a4 a5 a6 a7 a8 a9,
                   Accounting.get_ap_credits cfg a1 a2 a3 a4 a5 a6 a7 a8 a9
                     (mkState g w)
                   = (Raise e, s'))))
  /\ (forall s o s',
         Crm.get_access_token cfg s = (o, s') ->
         sent (world s') = sent (world s) ++ [Crm.token_request cfg]
         /\ method (Crm.token_request cfg) = "POST"
         /\ url (Crm.token_request cfg)
            = "https://auth.servicetitan.io/connect/token"
         /\ (forall v, o = Return v ->
               exists r fields,
                 next_reply s = Replied r
                 /\ json_body r = Some (JObj fields)
                 /\ lookup "access_token" fields = Some v)
         /\ (forall r fields tok,
               next_reply s = Replied r ->
               is_success (status_code r) = true ->
               json_body r = Some (JObj fields) ->
               lookup "access_token" fields = Some tok ->
               o = Return tok)
         /\ (forall e, o = Raise e ->
               forall tag_name description,
                 Crm.create_booking_provider_tag cfg tag_name description s
                 = (Raise e, s')))
  /\ (forall library_text s o s',
         MarketingAds.get_access_token cfg s = (o, s') ->
         sent (world s') = sent (world s) ++ [MarketingAds.token_request cfg]
         /\ method (MarketingAds.token_request cfg) = "POST"
         /\ url (MarketingAds.token_request cfg)
            = "https://auth.servicetitan.io/connect/token"
         /\ (forall e, o = Raise e ->
               (forall m endpoint ps d,
                   MarketingAds.make_request library_text cfg m endpoint ps d s
                   = (Return (JObj [("error", JStr "Request failed");
                                    ("message",
                                     JStr (MarketingAds.str_exn library_text e))]),
                      s'))
               /\ MarketingAds.get_capacity_warnings library_text cfg s
                  = (Return (JObj [("error", JStr "Request failed");
                                   ("message",
                                    JStr (MarketingAds.str_exn library_text e))]),
                     s'))).
Proof.
  intros Hc. split; [| split].
  - intros g w o s' Hcold Hcall.
    assert (Hm : Accounting.cache_hit g (now w) = false).
    { unfold Accounting.cache_hit. rewrite Hcold. reflexivity. }
    pose proof Hcall as Hf.
    rewrite (AccountingFacts.miss cfg (mkState g w) Hc Hm) in Hf.
    destruct (TokenCache.fetch_steps _ _ _ _ Hf) as [Hlog Hcases].
    split; [exact Hlog |]. split; [reflexivity |]. split; [reflexivity |].
    split; [| split].
    + intros v ->.
      destruct Hcases as [(msg & _ & Ho & _) | (r & s1 & Hr & _ & _ & Hon)];
        [discriminate |].
      destruct (AccountingFacts.returned _ _ _ _ Hon)
        as (fields & _ & _ & _ & _ & Hb & Hk & _).
      exists r, fields. auto.
    + intros r fields tok lifetime n x Hr Hs Hb Hk He Hn Hx.
      destruct Hcases as [(msg & Hmsg & _) | (r' & s1 & Hr' & _ & _ & Hon)].
      * rewrite Hr in Hmsg. discriminate.
      * rewrite Hr in Hr'. inversion Hr'; subst r'.
        rewrite (AccountingFacts.stored_rounded _ _ _ _ _ _ _ Hs Hb Hk He Hn Hx)
          in Hon.
        now inversion Hon.
    + intros e ->. split.
      * intros m endpoint ps d. unfold Accounting.make_api_request.
        apply bind_raises, Hcall.
      * intros. unfold Accounting.get_ap_credits, Accounting.make_api_request.
        apply bind_raises, Hcall.
  - intros s o s' Hcall.
    destruct (crm_call _ _ _ _ Hc Hcall) as [Hs Hcases].
    split; [rewrite Hs; reflexivity |].
    split; [reflexivity |]. split; [reflexivity |]. split; [| split].
    + intros v ->.
      destruct Hcases as [(msg & _ & Ho) | (r & Hr & Hon)]; [discriminate |].
      destruct (crm_returned _ _ _ _ Hon) as (fields & _ & Hb & Hk).
      exists r, fields. auto.
    + intros r fields tok Hr Hok Hb Hk.
      destruct Hcases as [(msg & Hmsg & _) | (r' & Hr' & Hon)].
      * rewrite Hr in Hmsg. discriminate.
      * rewrite Hr in Hr'. inversion Hr'; subst r'.
        rewrite (crm_granted _ _ _ _ Hok Hb Hk) in Hon. now inversion Hon.
    + intros e -> tag_name description.
      unfold Crm.create_booking_provider_tag. apply bind_raises, Hcall.
  - intros library_text s o s' Hcall.
    rewrite (ads_call _ _ _ _ Hc Hcall) at 1.
    split; [reflexivity |]. split; [reflexivity |]. split; [reflexivity |].
    intros e ->. split.
    + intros m endpoint ps d. apply (ads_wrapper_catches _ _ _ _ _ _ _ _ _ Hcall).
    + apply (ads_wrapper_catches _ _ _ _ _ _ _ _ _ Hcall).
Qed.


Lemma cold_start_posts_exactly_once_witness :
  config_ok Sample.cfg = true
  /\ sent (mkWorld 1002 Sample.peer [Accounting.token_request Sample.cfg])
     = [] ++ [Accounting.token_request Sample.cfg].
Proof.
  split; [reflexivity |].
  destruct (cold_start_posts_exactly_once Sample.cfg eq_refl) as [Hacc _].
  destruct (Hacc Accounting.initial (Sample.at_time 1000 Sample.peer)
              (Return (JStr "tok-a"))
              (mkState Sample.warm
                 (mkWorld 1002 Sample.peer
                    [Accounting.token_request Sample.cfg]))
              eq_refl eq_refl) as [Hlog _].
  exact Hlog.
Defined.

(** A call of the crm helper that returns had a complete configuration. *)
Lemma crm_returns_config cfg s v s' :
  Crm.get_access_token cfg s = (Return v, s') -> config_ok cfg = true.
Proof.
  intros Hcall. destruct (config_ok cfg) eqn:Hc; [reflexivity |].
  rewrite (Configuration.crm_missing_config _ _ Hc) in Hcall. discriminate.
Qed.

(** C9. In servicetitan_crm.py every call of [get_access_token] that
    returns has posted a token request: the module keeps nothing between
    calls (its state is [unit]), so of two calls in a row each posts its
    own request, whatever the clock reads at the second one. *)
Theorem crm_every_call_posts cfg s v1 s1 w2 v2 s2 :
  Crm.get_access_token cfg s = (Return v1, s1) ->
  sent w2 = sent (world s1) ->
  Crm.get_access_token cfg (mkState tt w2) = (Return v2, s2) ->
  sent (world s1) = sent (world s) ++ [Crm.token_request cfg]
  /\ sent (world s2)
     = sent (world s) ++ [Crm.token_request cfg; Crm.token_request cfg].
Proof.
  intros H1 Hw H2. pose proof (crm_returns_config _ _ _ _ H1) as Hc.
  destruct (crm_call _ _ _ _ Hc H1) as [Hs1 _].
  destruct (crm_call _ _ _ _ Hc H2) as [Hs2 _].
  assert (Hlog1 : sent (world s1) = sent (world s) ++ [Crm.token_request cfg])
    by (rewrite Hs1; reflexivity).
  split; [exact Hlog1 |].
  rewrite Hs2. cbn. rewrite Hw, Hlog1, <- List.app_assoc. reflexivity.
Qed.

Lemma crm_every_call_posts_witness :
  [Crm.token_request Sample.cfg] = [] ++ [Crm.token_request Sample.cfg]
  /\ [Crm.token_request Sample.cfg; Crm.token_request Sample.cfg]
     = [] ++ [Crm.token_request Sample.cfg; Crm.token_request Sample.cfg].
Proof.
  apply (crm_every_call_posts Sample.cfg
           (mkState tt (Sample.at_time 1000 Sample.peer))
           (JStr "tok-a")
           (mkState tt (mkWorld 1002 Sample.peer [Crm.token_request Sample.cfg]))
           (mkWorld 1003 Sample.peer [Crm.token_request Sample.cfg])
           (JStr "tok-b")
           (mkState tt
              (mkWorld 1005 Sample.peer
                 [Crm.token_request Sample.cfg; Crm.token_request Sample.cfg])));
    reflexivity.
Defined.

End SingleAttempt.

(* ------------------------------------------------------------------ *)
(** ** Error statuses of the resource endpoints *)

Module ErrorStatus.

Lemma error_not_success status : is_error status = true -> is_success status = false.
Proof.
  unfold is_error, is_success. intros H.
  apply Bool.andb_true_iff in H. destruct H as [H _].
  apply Z.leb_le in H. apply Bool.andb_false_iff. right.
  apply Z.leb_gt. lia.
Qed.







End ErrorStatus.

(* ------------------------------------------------------------------ *)
(** ** Two callers at once *)

Module Race.
Import Accounting Interleaving.

Lemma start_miss cfg s :
  config_ok cfg = true ->
  cache_hit (globals s) (now (world s)) = false ->
  start cfg s
  = (Waiting (List.length (sent (world s))),
     mkState (globals s)
       (mkWorld (now (world s)) (net (world s))
          (sent (world s) ++ [token_request cfg]))).
Proof. unfold start. intros -> ->. reflexivity. Qed.

Lemma wake_granted n s r tok k x :
  result (net (world s) n) = Replied r ->
  grants r tok k ->
  float_of_int k = Some x ->
  wake n s
  = (Done (Return tok),
     mkState (mkGlobals tok (float_add (float_add (now (world s)) x) (-60)))
       (world s)).
Proof.
  intros Hr (fields & lifetime & Hs & Hb & Ht & He & Hk) Hx.
  unfold wake, bind. rewrite Hr. cbn [deliver ret].
  rewrite (AccountingFacts.stored_rounded _ _ _ _ _ _ _ Hs Hb Ht He Hk Hx).
  reflexivity.
Qed.

(** The two halves make up the function: a call is [start], then the
    round trip, then [wake]. *)
Lemma call_is_start_then_wake cfg s :
  match start cfg s with
  | (Done o, s1) => get_access_token cfg s = (o, s1)
  | (Waiting n, s1) =>
      let w := world s1 in
      wake n (mkState (globals s1)
                (mkWorld (now w + elapsed (net w n)) (net w) (sent w)))
      = (let (o, s') := get_access_token cfg s in (Done o, s'))
  | (Ready, _) => False
  end.
Proof.
  unfold start. destruct (config_ok cfg) eqn:Hc; cbn [negb].
  - destruct (cache_hit (globals s) (now (world s))) eqn:Hh.
    + apply (AccountingFacts.hit _ _ Hc Hh).
    + rewrite (AccountingFacts.miss _ _ Hc Hh). reflexivity.
  - apply (AccountingFacts.missing_config _ _ Hc).
Qed.

(** C10. The coroutine of [get_access_token] runs in two uninterrupted
    halves, [start] up to the request and [wake] from the response on:
    run one after the other they are the function.  Two callers whose
    checks both find no valid token (the second check runs before either
    response is processed) each post their own token request; nothing
    makes one wait for the other.  When both replies grant a token whose
    [expires_in] converts to a float, each caller gets the token of its
    own reply, each stores it in the shared globals when it is woken, and
    what the globals hold in the end is the token of the caller woken
    last, with the expiry line 74 computes at that moment. *)
Theorem both_callers_fetch_and_last_writer_wins
    cfg s a x d1 d2 d3 r1 r2 tok1 tok2 k1 k2 x1 x2 :
  config_ok cfg = true ->
  cache_hit (globals s) (now (world s)) = false ->
  cache_hit (globals s) (now (world s) + d1) = false ->
  result (net (world s) (List.length (sent (world s)))) = Replied r1 ->
  result (net (world s) (S (List.length (sent (world s))))) = Replied r2 ->
  grants r1 tok1 k1 ->
  grants r2 tok2 k2 ->
  float_of_int k1 = Some x1 ->
  float_of_int k2 = Some x2 ->
  (forall s0,
      match start cfg s0 with
      | (Done o, s1) => get_access_token cfg s0 = (o, s1)
      | (Waiting n, s1) =>
          let w := world s1 in
          wake n (mkState (globals s1)
                    (mkWorld (now w + elapsed (net w n)) (net w) (sent w)))
          = (let (o, s') := get_access_token cfg s0 in (Done o, s'))
      | (Ready, _) => False
      end)
  /\ exists mid final,
    run cfg [Start a; Tick d1; Start (other a); Tick d2; Wake x]
      (mkSystem s Ready Ready) = Some mid
    /\ run cfg [Tick d3; Wake (other x)] mid = Some final
    /\ sent (world (shared final))
       = sent (world s) ++ [token_request cfg; token_request cfg]
    /\ task_of a final = Done (Return tok1)
    /\ task_of (other a) final = Done (Return tok2)
    /\ _access_token (globals (shared mid))
       = (if same x a then tok1 else tok2)
    /\ globals (shared final)
       = (if same x a
          then mkGlobals tok2
                 (float_add (float_add (now (world s) + d1 + d2 + d3) x2) (-60))
          else mkGlobals tok1
                 (float_add (float_add (now (world s) + d1 + d2 + d3) x1) (-60))).
Proof.
  intros Hc Hm1 Hm2 Hr1 Hr2 Hg1 Hg2 Hx1 Hx2.
  split; [intros s0; apply call_is_start_then_wake |].
  destruct s as [g [t answers log]]. cbn [globals world now net sent] in *.
  assert (Hlen : List.length (log ++ [token_request cfg]) = S (List.length log)).
  { rewrite List.length_app. cbn. lia. }
  assert (Hstart1 := start_miss cfg (mkState g (mkWorld t answers log)) Hc Hm1).
  assert (Hstart2 :=
            start_miss cfg
              (mkState g (mkWorld (t + d1) answers (log ++ [token_request cfg])))
              Hc Hm2).
  cbn [globals world now net sent] in Hstart1, Hstart2.
  rewrite Hlen, <- List.app_assoc in Hstart2. cbn [List.app] in Hstart2.
  set (log2 := log ++ [token_request cfg; token_request cfg]) in *.
  assert (Hwake1 : forall g' t',
             wake (List.length log) (mkState g' (mkWorld t' answers log2))
             = (Done (Return tok1),
                mkState (mkGlobals tok1 (float_add (float_add t' x1) (-60)))
                  (mkWorld t' answers log2))).
  { intros g' t'.
    exact (wake_granted _ (mkState g' (mkWorld t' answers log2)) r1 _ _ _
             Hr1 Hg1 Hx1). }
  assert (Hwake2 : forall g' t',
             wake (S (List.length log)) (mkState g' (mkWorld t' answers log2))
             = (Done (Return tok2),
                mkState (mkGlobals tok2 (float_add (float_add t' x2) (-60)))
                  (mkWorld t' answers log2))).
  { intros g' t'.
    exact (wake_granted _ (mkState g' (mkWorld t' answers log2)) r2 _ _ _
             Hr2 Hg2 Hx2). }
  destruct a, x;
    cbn [run step task_of update other shared first second
           globals world now net sent];
    rewrite Hstart1;
    cbn [run step task_of update other shared first second
           globals world now net sent];
    rewrite Hstart2;
    cbn [run step task_of update other shared first second
           globals world now net sent];
    rewrite ?Hwake1, ?Hwake2;
    cbn [run step task_of update other shared first second
           globals world now net sent];
    eexists; eexists; (split; [reflexivity |]);
    cbn [run step task_of update other shared first second
           globals world now net sent];
    rewrite ?Hwake1, ?Hwake2;
    cbn [run step task_of update other shared first second same
           globals world now net sent _access_token];
    repeat split.
Qed.

Lemma sample_grants tok k : grants (Sample.granted tok k) (JStr tok) k.
Proof. exists [("access_token", JStr tok); ("token_type", JStr "Bearer");
               ("expires_in", JNum k)], (JNum k).
       repeat split.
Qed.

Lemma both_callers_fetch_and_last_writer_wins_witness :
  exists mid final,
    run Sample.cfg [Start First; Tick 1; Start Second; Tick 2; Wake Second]
      (mkSystem (mkState initial (Sample.at_time 1000 Sample.peer)) Ready Ready)
    = Some mid
    /\ run Sample.cfg [Tick 1; Wake First] mid = Some final
    /\ sent (world (shared final))
       = [token_request Sample.cfg; token_request Sample.cfg]
    /\ _access_token (globals (shared mid)) = JStr "tok-b"
    /\ globals (shared final) = mkGlobals (JStr "tok-a") 1064.
Proof.
  destruct (both_callers_fetch_and_last_writer_wins Sample.cfg
              (mkState initial (Sample.at_time 1000 Sample.peer))
              First Second 1 2 1
              (Sample.granted "tok-a" 120) (Sample.granted "tok-b" 3600)
              (JStr "tok-a") (JStr "tok-b") 120 3600 120 3600
              eq_refl eq_refl eq_refl eq_refl eq_refl
              (sample_grants "tok-a" 120) (sample_grants "tok-b" 3600)
              eq_refl eq_refl)
    as (_ & mid & final & Hmid & Hfinal & Hlog & _ & _ & Hcache & Hend).
  exists mid, final. repeat split; assumption.
Defined.

(** The same run, computed. *)
Example race_on_sample :
  run Sample.cfg
    [Start First; Tick 1; Start Second; Tick 2; Wake Second; Tick 1; Wake First]
    (mkSystem (mkState initial (Sample.at_time 1000 Sample.peer)) Ready Ready)
  = Some (mkSystem
            (mkState (mkGlobals (JStr "tok-a") 1064)
               (mkWorld 1004 Sample.peer
                  [token_request Sample.cfg; token_request Sample.cfg]))
            (Done (Return (JStr "tok-a")))
            (Done (Return (JStr "tok-b")))).
Proof. reflexivity. Qed.

End Race.

(* ------------------------------------------------------------------ *)
(** ** More facts about strings and dicts *)

Lemma contains_prefixed (p x q : string) :
  contains x (p ++ x ++ q)%string = true.
Proof.
  assert (Hpre : forall y, String.prefix y (y ++ q)%string = true).
  { induction y as [ | a y IH]; cbn; [destruct q; reflexivity |].
    destruct (ascii_dec a a); [exact IH | contradiction]. }
  induction p as [ | a p IH]; cbn [append].
  - destruct x as [ | b x]; [destruct q; reflexivity |].
    pose proof (Hpre (String b x)) as H. cbn [append] in H.
    cbn [append contains]. rewrite H. reflexivity.
  - cbn [contains]. rewrite IH. apply Bool.orb_true_r.
Qed.

Lemma append_assoc (a b c : string) :
  ((a ++ b) ++ c)%string = (a ++ b ++ c)%string.
Proof. induction a as [ | x a IH]; cbn; [reflexivity | now rewrite IH]. Qed.

Lemma append_cancel (p a b : string) :
  (p ++ a)%string = (p ++ b)%string -> a = b.
Proof.
  induction p as [ | x p IH]; cbn; [auto |]. intros H. inversion H. auto.
Qed.

Lemma drop_append (p a : string) : drop (String.length p) (p ++ a) = a.
Proof. induction p as [ | x p IH]; cbn; [reflexivity | exact IH]. Qed.

(** Python prints an [int] so that it reads back as the same number. *)
Lemma int_of_str_of_int (n : Z) : int_of_str (str_of_int n) = Some n.
Proof.
  unfold int_of_str, str_of_int.
  assert (Hnorm : Decimal.norm (Z.to_int n) = Z.to_int n).
  { rewrite <- (DecimalZ.of_to n) at 2. symmetry. apply DecimalZ.to_of. }
  rewrite NilZero.isi.
  - cbn. now rewrite DecimalZ.of_to.
  - intros H. rewrite H in Hnorm. discriminate.
  - intros H. rewrite H in Hnorm. discriminate.
Qed.

Lemma str_of_int_inj (a b : Z) : str_of_int a = str_of_int b -> a = b.
Proof.
  intros H. apply (f_equal int_of_str) in H.
  rewrite !int_of_str_of_int in H. now inversion H.
Qed.

(** What a key is bound to after [if cond: d[k] = v]. *)
Lemma lookup_set_if key cond k v d :
  lookup key (set_if cond k v d)
  = match lookup key d with
    | Some x => Some x
    | None => if (k =? key)%string then (if cond then Some v else None) else None
    end.
Proof.
  unfold set_if. destruct cond.
  - induction d as [ | [k' v'] d IH]; cbn.
    + destruct (k =? key)%string; reflexivity.
    + destruct (k' =? key)%string; [reflexivity | exact IH].
  - destruct (lookup key d); [reflexivity |].
    destruct (k =? key)%string; reflexivity.
Qed.

Lemma in_set_if key x cond k v d :
  In (key, x) (set_if cond k v d) ->
  In (key, x) d \/ (cond = true /\ key = k /\ x = v).
Proof.
  unfold set_if. destruct cond; [| auto].
  intros H. apply List.in_app_or in H. destruct H as [H | [H | []]]; [auto |].
  inversion H. auto.
Qed.

(* ------------------------------------------------------------------ *)
(** ** servicetitan_accounting.make_api_request *)

Module ApiRequests.
Import Accounting AccountingFacts.

(** Once the token is there, the wrapper sends its request and decides on
    the reply. *)
Lemma with_token cfg m endpoint ps d s tok s1 :
  get_access_token cfg s = (Return tok, s1) ->
  make_api_request cfg m endpoint ps d s
  = bind (send (api_request cfg tok m endpoint ps d))
      (fun response =>
         if status_code response >=? 400
         then raise (Exception ("API request failed: "
                                ++ str_of_int (status_code response)
                                ++ " - " ++ text response))
         else response_json response) s1.
Proof.
  intros H. unfold make_api_request. rewrite (bind_returns _ _ _ _ _ H).
  reflexivity.
Qed.

(** Whatever the reply, the state afterwards is the one the round trip of
    the API request leaves: the globals are those the token helper left. *)
Lemma trace cfg m endpoint ps d s tok s1 o s' :
  get_access_token cfg s = (Return tok, s1) ->
  make_api_request cfg m endpoint ps d s = (o, s') ->
  s' = after_round_trip (api_request cfg tok m endpoint ps d) s1.
Proof.
  intros Htok Hcall. rewrite (with_token _ _ _ _ _ _ _ _ Htok) in Hcall.
  destruct (send_then _ _ _ _ _ Hcall) as [(msg & _ & _ & Hs) | (r & _ & Hk)];
    [exact Hs |].
  unfold response_json in Hk.
  destruct (status_code r >=? 400); [now inversion Hk |].
  destruct (json_body r); now inversion Hk.
Qed.

Lemma answered cfg m endpoint ps d s tok s1 r :
  get_access_token cfg s = (Return tok, s1) ->
  next_reply s1 = Replied r ->
  make_api_request cfg m endpoint ps d s
  = ((if status_code r >=? 400
      then Raise (Exception ("API request failed: "
                             ++ str_of_int (status_code r) ++ " - " ++ text r))
      else match json_body r with
           | Some v => Return v
           | None => Raise JSONDecodeError
           end),
     after_round_trip (api_request cfg tok m endpoint ps d) s1).
Proof.
  intros Htok Hr. rewrite (with_token _ _ _ _ _ _ _ _ Htok).
  rewrite (send_answered _ _ _ _ Hr). unfold response_json.
  destruct (status_code r >=? 400); [reflexivity |].
  destruct (json_body r); reflexivity.
Qed.

(** With a valid token in the cache, a call of [make_api_request] sends
    exactly one request, the API request itself: method, URL
    [API_BASE_URL/tenant/TENANT_ID<endpoint>], parameters and JSON body as
    given, the cached token in the [Authorization] header and [APP_KEY] in
    [ST-App-Key].  The authentication endpoint is not contacted and the
    cache is left as it was. *)
Theorem cached_token_sends_only_the_api_request cfg g w m endpoint ps d o s' :
  reachable cfg g ->
  truthy (_access_token g) = true ->
  now w < _token_expires_at g ->
  make_api_request cfg m endpoint ps d (mkState g w) = (o, s') ->
  sent (world s')
  = sent w ++ [mkRequest m
                 ("https://api.servicetitan.io/accounting/v2/tenant/"
                  ++ env_str (TENANT_ID cfg) ++ endpoint)
                 [("Authorization", Bearer (_access_token g));
                  ("ST-App-Key", Env (APP_KEY cfg));
                  ("Content-Type", Lit "application/json")]
                 ps [] d]
  /\ globals s' = g.
Proof.
  intros Hr Ht Hn Hcall.
  assert (Hhit : get_access_token cfg (mkState g w)
                 = (Return (_access_token g), mkState g w)).
  { apply (hit cfg (mkState g w) (cached_config _ _ Hr Ht)).
    unfold cache_hit. cbn. rewrite Ht. apply Z.ltb_lt in Hn. now rewrite Hn. }
  rewrite (trace _ _ _ _ _ _ _ _ _ _ Hhit Hcall). split; reflexivity.
Qed.

Lemma cached_token_sends_only_the_api_request_witness :
  [mkRequest "GET"
     ("https://api.servicetitan.io/accounting/v2/tenant/"
      ++ "4242" ++ "/gl-accounts")
     [("Authorization", Bearer (JStr "tok-a"));
      ("ST-App-Key", Env (Some "app-key"));
      ("Content-Type", Lit "application/json")]
     None [] None]
  = [] ++ [mkRequest "GET"
             ("https://api.servicetitan.io/accounting/v2/tenant/"
              ++ env_str (TENANT_ID Sample.cfg) ++ "/gl-accounts")
             [("Authorization", Bearer (_access_token Sample.warm));
              ("ST-App-Key", Env (APP_KEY Sample.cfg));
              ("Content-Type", Lit "application/json")]
             None [] None]
  /\ Sample.warm = Sample.warm.
Proof.
  apply (cached_token_sends_only_the_api_request Sample.cfg Sample.warm
           (Sample.at_time 1010 Sample.peer) "GET" "/gl-accounts" None None
           (Return (Sample.token_document (JStr "tok-a") (JNum 120)))
           (mkState Sample.warm
              (mkWorld 1012 Sample.peer
                 [api_request Sample.cfg (JStr "tok-a") "GET" "/gl-accounts"
                    None None]))).
  - exact warm_reachable.
  - reflexivity.
  - cbn. lia.
  - reflexivity.
Defined.



(** When the resource endpoint answers with a status of 400 or more (404
    included), [make_api_request] raises [Exception] with the text
    [API request failed: <status> - <body>]: the error carries the status
    code and the body of the reply.  The cache is not touched by the
    failure: the token the helper returned stays cached. *)
Theorem api_error_reports_status_and_body cfg m endpoint ps d s tok s1 r o s' :
  get_access_token cfg s = (Return tok, s1) ->
  next_reply s1 = Replied r ->
  400 <= status_code r ->
  make_api_request cfg m endpoint ps d s = (o, s') ->
  o = Raise (Exception ("API request failed: " ++ str_of_int (status_code r)
                        ++ " - " ++ text r))
  /\ (forall e, o = Raise e ->
        carries_status e (status_code r) = true
        /\ carries_body e (text r) = true)
  /\ globals s' = globals s1.
Proof.
  intros Htok Hr Hst Hcall.
  rewrite (answered _ _ _ _ _ _ _ _ _ Htok Hr) in Hcall.
  assert (Hge : (status_code r >=? 400) = true) by (apply Z.geb_le; lia).
  rewrite Hge in Hcall. inversion Hcall; subst o s'.
  split; [reflexivity |]. split; [| reflexivity].
  intros e He. injection He as <-. split.
  - exact (contains_prefixed "API request failed: "
             (str_of_int (status_code r)) (" - " ++ text r)).
  - change (contains (text r)
              ("API request failed: "
               ++ (str_of_int (status_code r) ++ " - " ++ text r)) = true).
    rewrite <- (append_assoc (str_of_int (status_code r)) " - " (text r)).
    rewrite <- (append_assoc "API request failed: "
                  (str_of_int (status_code r) ++ " - ") (text r)).
    apply contains_suffix.
Qed.

Lemma api_error_reports_status_and_body_witness :
  Raise (A := json) (Exception "API request failed: 401 - invalid_client")
  = Raise (Exception ("API request failed: " ++ str_of_int 401
                      ++ " - " ++ "invalid_client"))
  /\ (forall e,
        Raise (A := json) (Exception "API request failed: 401 - invalid_client")
        = Raise e ->
        carries_status e 401 = true /\ carries_body e "invalid_client" = true)
  /\ Sample.warm = Sample.warm.
Proof.
  apply (api_error_reports_status_and_body Sample.cfg "GET" "/gl-accounts"
           None None
           (mkState Sample.warm (Sample.at_time 1010 (Sample.refusing 401)))
           (JStr "tok-a")
           (mkState Sample.warm (Sample.at_time 1010 (Sample.refusing 401)))
           (Sample.refused 401)
           (Raise (Exception "API request failed: 401 - invalid_client"))
           (mkState Sample.warm
              (mkWorld 1011 (Sample.refusing 401)
                 [api_request Sample.cfg (JStr "tok-a") "GET" "/gl-accounts"
                    None None]))).
  - reflexivity.
  - reflexivity.
  - cbn. lia.
  - reflexivity.
Defined.

End ApiRequests.

(* ------------------------------------------------------------------ *)
(** ** The tools of servicetitan_accounting.py *)

Module AccountingTools.
Import Accounting.

Lemma sent_after_api_request cfg m endpoint ps d s tok s1 o s' :
  get_access_token cfg s = (Return tok, s1) ->
  make_api_request cfg m endpoint ps d s = (o, s') ->
  sent (world s') = sent (world s1) ++ [api_request cfg tok m endpoint ps d].
Proof.
  intros Htok Hcall.
  rewrite (ApiRequests.trace _ _ _ _ _ _ _ _ _ _ Htok Hcall). reflexivity.
Qed.

(** [delete_journal_entry] sends [DELETE .../journal-entries/<id>]; when
    the reply is below 400 and has no JSON body (a 204 No Content, say),
    the tool raises [JSONDecodeError] although the request went out and was
    not refused. *)
Theorem delete_without_json_body_raises cfg id s tok s1 r o s' :
  get_access_token cfg s = (Return tok, s1) ->
  next_reply s1 = Replied r ->
  status_code r < 400 ->
  json_body r = None ->
  delete_journal_entry cfg id s = (o, s') ->
  o = Raise JSONDecodeError
  /\ sent (world s')
     = sent (world s1)
       ++ [api_request cfg tok "DELETE" ("/journal-entries/" ++ str_of_int id)
             None None].
Proof.
  intros Htok Hr Hst Hb Hcall. unfold delete_journal_entry in Hcall.
  split; [| apply (sent_after_api_request _ _ _ _ _ _ _ _ _ _ Htok Hcall)].
  rewrite (ApiRequests.answered _ _ _ _ _ _ _ _ _ Htok Hr) in Hcall.
  assert (Hlt : (status_code r >=? 400) = false).
  { apply Bool.not_true_is_false. intros H. apply Z.geb_le in H. lia. }
  rewrite Hlt, Hb in Hcall. now inversion Hcall.
Qed.

Lemma delete_without_json_body_raises_witness :
  Raise (A := json) JSONDecodeError = Raise JSONDecodeError
  /\ [api_request Sample.cfg (JStr "tok-a") "DELETE" "/journal-entries/77" None None]
     = [] ++ [api_request Sample.cfg (JStr "tok-a") "DELETE"
                ("/journal-entries/" ++ str_of_int 77) None None].
Proof.
  apply (delete_without_json_body_raises Sample.cfg 77
           (mkState Sample.warm
              (Sample.at_time 1010 (Sample.always (mkResponse 204 "" None))))
           (JStr "tok-a")
           (mkState Sample.warm
              (Sample.at_time 1010 (Sample.always (mkResponse 204 "" None))))
           (mkResponse 204 "" None)
           (Raise JSONDecodeError)
           (mkState Sample.warm
              (mkWorld 1011 (Sample.always (mkResponse 204 "" None))
                 [api_request Sample.cfg (JStr "tok-a") "DELETE"
                    "/journal-entries/77" None None]))).
  - reflexivity.
  - reflexivity.
  - cbn. lia.
  - reflexivity.
  - reflexivity.
Defined.

(** [get_ap_credits] sends a filter exactly when the argument is truthy:
    a key of the query is bound to its argument when that is truthy and is
    absent otherwise, so [None], [0], [False] and the empty string are
    never transmitted ([page=0] and [include_total=False] are dropped). *)
Theorem ap_credits_query_keeps_truthy_arguments cfg
    ids page page_size include_total created_before created_on_or_after
    modified_before modified_on_or_after sort s tok s1 o s' :
  get_access_token cfg s = (Return tok, s1) ->
  get_ap_credits cfg ids page page_size include_total created_before
    created_on_or_after modified_before modified_on_or_after sort s = (o, s') ->
  exists query,
    sent (world s')
    = sent (world s1) ++ [api_request cfg tok "GET" "/ap-credits" (Some query) None]
    /\ (forall key arg,
           In (key, arg)
             [("ids", ids); ("page", page); ("pageSize", page_size);
              ("includeTotal", include_total); ("createdBefore", created_before);
              ("createdOnOrAfter", created_on_or_after);
              ("modifiedBefore", modified_before);
              ("modifiedOnOrAfter", modified_on_or_after); ("sort", sort)] ->
           lookup key query = if truthy arg then Some arg else None)
    /\ (forall key v, In (key, v) query -> truthy v = true).
Proof.
  intros Htok Hcall. unfold get_ap_credits in Hcall.
  eexists. split; [apply (sent_after_api_request _ _ _ _ _ _ _ _ _ _ Htok Hcall) |].
  split.
  - intros key arg Hin. cbn [In] in Hin.
    repeat (destruct Hin as [Hin | Hin];
            [injection Hin as <- <-; rewrite !lookup_set_if; cbn;
             match goal with
             | |- _ = (if truthy ?a then _ else _) => destruct (truthy a)
             end; reflexivity |]).
    contradiction.
  - intros key v Hin.
    repeat (apply in_set_if in Hin; destruct Hin as [Hin | (Hc & _ & ->)];
            [| exact Hc]).
    destruct Hin.
Qed.

Lemma ap_credits_query_keeps_truthy_arguments_witness :
  exists query,
    [api_request Sample.cfg (JStr "tok-a") "GET" "/ap-credits"
       (Some [("pageSize", JNum 50); ("sort", JStr "+Id")]) None]
    = [] ++ [api_request Sample.cfg (JStr "tok-a") "GET" "/ap-credits"
               (Some query) None]
    /\ lookup "page" query = None
    /\ lookup "pageSize" query = Some (JNum 50)
    /\ lookup "includeTotal" query = None.
Proof.
  destruct (ap_credits_query_keeps_truthy_arguments Sample.cfg
              JNull (JNum 0) (JNum 50) (JBool false) JNull JNull JNull JNull
              (JStr "+Id")
              (mkState Sample.warm (Sample.at_time 1010 Sample.peer))
              (JStr "tok-a")
              (mkState Sample.warm (Sample.at_time 1010 Sample.peer))
              (Return (Sample.token_document (JStr "tok-a") (JNum 120)))
              (mkState Sample.warm
                 (mkWorld 1012 Sample.peer
                    [api_request Sample.cfg (JStr "tok-a") "GET" "/ap-credits"
                       (Some [("pageSize", JNum 50); ("sort", JStr "+Id")]) None]))
              eq_refl eq_refl)
    as (query & Hsent & Hkeys & _).
  exists query. split; [exact Hsent |].
  split; [| split].
  - apply (Hkeys "page" (JNum 0)). cbn. auto.
  - apply (Hkeys "pageSize" (JNum 50)). cbn. auto.
  - apply (Hkeys "includeTotal" (JBool false)). cbn. auto 6.
Defined.

(** [export_invoices] tests its two arguments differently: [from] is sent
    exactly when [from_token] is truthy (an empty string is dropped), while
    [includeRecentChanges] is sent whenever the argument is not [None], so
    [False] does go out. *)
Theorem export_invoices_query cfg from_token include_recent_changes s tok s1 o s' :
  get_access_token cfg s = (Return tok, s1) ->
  export_invoices cfg from_token include_recent_changes s = (o, s') ->
  exists query,
    sent (world s')
    = sent (world s1)
      ++ [api_request cfg tok "GET" "/export/invoices" (Some query) None]
    /\ lookup "from" query = (if truthy from_token then Some from_token else None)
    /\ lookup "includeRecentChanges" query
       = (if is_not_none include_recent_changes
          then Some include_recent_changes else None)
    /\ (include_recent_changes = JBool false ->
        lookup "includeRecentChanges" query = Some (JBool false))
    /\ (from_token = JStr "" -> lookup "from" query = None).
Proof.
  intros Htok Hcall. unfold export_invoices in Hcall.
  eexists. split; [apply (sent_after_api_request _ _ _ _ _ _ _ _ _ _ Htok Hcall) |].
  assert (Hfrom : forall c1 c2,
             lookup "from"
               (set_if c2 "includeRecentChanges" include_recent_changes
                  (set_if c1 "from" from_token []))
             = if c1 then Some from_token else None)
    by (intros [] []; reflexivity).
  assert (Hirc : forall c1 c2,
             lookup "includeRecentChanges"
               (set_if c2 "includeRecentChanges" include_recent_changes
                  (set_if c1 "from" from_token []))
             = if c2 then Some include_recent_changes else None)
    by (intros [] []; reflexivity).
  repeat split.
  - apply Hfrom.
  - apply Hirc.
  - intros ->. apply Hirc.
  - intros ->. apply Hfrom.
Qed.

Lemma export_invoices_query_witness :
  exists query,
    [api_request Sample.cfg (JStr "tok-a") "GET" "/export/invoices"
       (Some [("includeRecentChanges", JBool false)]) None]
    = [] ++ [api_request Sample.cfg (JStr "tok-a") "GET" "/export/invoices"
               (Some query) None]
    /\ lookup "from" query = None
    /\ lookup "includeRecentChanges" query = Some (JBool false).
Proof.
  destruct (export_invoices_query Sample.cfg (JStr "") (JBool false)
              (mkState Sample.warm (Sample.at_time 1010 Sample.peer))
              (JStr "tok-a")
              (mkState Sample.warm (Sample.at_time 1010 Sample.peer))
              (Return (Sample.token_document (JStr "tok-a") (JNum 120)))
              (mkState Sample.warm
                 (mkWorld 1012 Sample.peer
                    [api_request Sample.cfg (JStr "tok-a") "GET" "/export/invoices"
                       (Some [("includeRecentChanges", JBool false)]) None]))
              eq_refl eq_refl)
    as (query & Hsent & _ & _ & Hirc & Hfrom).
  exists query. split; [exact Hsent |]. split.
  - apply Hfrom. reflexivity.
  - apply Hirc. reflexivity.
Defined.

(** [mark_ap_credits_as_exported] posts a JSON array with one object
    [{apCreditId: id}] per id, in the order given; for an empty list it
    still sends the request, with an empty array. *)
Theorem mark_ap_credits_payload cfg ap_credit_ids s tok s1 o s' :
  get_access_token cfg s = (Return tok, s1) ->
  mark_ap_credits_as_exported cfg ap_credit_ids s = (o, s') ->
  exists items,
    sent (world s')
    = sent (world s1)
      ++ [api_request cfg tok "POST" "/ap-credits/markasexported" None
            (Some (JArr items))]
    /\ List.length items = List.length ap_credit_ids
    /\ (forall i,
          List.nth_error items i
          = option_map (fun id => JObj [("apCreditId", id)])
              (List.nth_error ap_credit_ids i))
    /\ (ap_credit_ids = [] -> items = []).
Proof.
  intros Htok Hcall. unfold mark_ap_credits_as_exported in Hcall.
  eexists. split; [apply (sent_after_api_request _ _ _ _ _ _ _ _ _ _ Htok Hcall) |].
  split; [apply List.length_map |]. split.
  - intros i. apply List.nth_error_map.
  - intros ->. reflexivity.
Qed.

Lemma mark_ap_credits_payload_witness :
  exists items,
    [api_request Sample.cfg (JStr "tok-a") "POST" "/ap-credits/markasexported"
       None (Some (JArr [JObj [("apCreditId", JNum 7)];
                         JObj [("apCreditId", JNum 9)]]))]
    = [] ++ [api_request Sample.cfg (JStr "tok-a") "POST"
               "/ap-credits/markasexported" None (Some (JArr items))]
    /\ List.length items = 2%nat.
Proof.
  destruct (mark_ap_credits_payload Sample.cfg [JNum 7; JNum 9]
              (mkState Sample.warm (Sample.at_time 1010 Sample.peer))
              (JStr "tok-a")
              (mkState Sample.warm (Sample.at_time 1010 Sample.peer))
              (Return (Sample.token_document (JStr "tok-a") (JNum 120)))
              (mkState Sample.warm
                 (mkWorld 1012 Sample.peer
                    [api_request Sample.cfg (JStr "tok-a") "POST"
                       "/ap-credits/markasexported" None
                       (Some (JArr [JObj [("apCreditId", JNum 7)];
                                    JObj [("apCreditId", JNum 9)]]))]))
              eq_refl eq_refl)
    as (items & Hsent & Hlen & _).
  exists items. split; [exact Hsent | exact Hlen].
Defined.

(** [get_gl_account_by_id] sends [GET .../gl-accounts/<id>] with the id in
    decimal: the id reads back from the end of the URL, so two different
    ids never give the same URL. *)
Theorem gl_account_url_identifies_the_account cfg account_id s tok s1 o s' :
  get_access_token cfg s = (Return tok, s1) ->
  get_gl_account_by_id cfg account_id s = (o, s') ->
  let base := (API_BASE_URL ++ "/tenant/" ++ env_str (TENANT_ID cfg)
               ++ "/gl-accounts/")%string in
  exists req,
    sent (world s') = sent (world s1) ++ [req]
    /\ method req = "GET"
    /\ url req = (base ++ str_of_int account_id)%string
    /\ int_of_str (drop (String.length base) (url req)) = Some account_id
    /\ (forall other, (base ++ str_of_int other)%string = url req ->
                      other = account_id).
Proof.
  intros Htok Hcall base. unfold get_gl_account_by_id in Hcall.
  pose proof (sent_after_api_request _ _ _ _ _ _ _ _ _ _ Htok Hcall) as Hsent.
  eexists. split; [exact Hsent |]. split; [reflexivity |].
  assert (Hurl : url (api_request cfg tok "GET"
                        ("/gl-accounts/" ++ str_of_int account_id) None None)
                 = (base ++ str_of_int account_id)%string).
  { unfold api_request, base. cbn [url].
    rewrite <- !append_assoc. reflexivity. }
  split; [exact Hurl |]. rewrite Hurl. split.
  - rewrite drop_append. apply int_of_str_of_int.
  - intros other H. apply append_cancel in H. now apply str_of_int_inj.
Qed.

Lemma gl_account_url_identifies_the_account_witness :
  exists req,
    [api_request Sample.cfg (JStr "tok-a") "GET" "/gl-accounts/1205" None None]
    = [] ++ [req]
    /\ url req
       = "https://api.servicetitan.io/accounting/v2/tenant/4242/gl-accounts/1205".
Proof.
  destruct (gl_account_url_identifies_the_account Sample.cfg 1205
              (mkState Sample.warm (Sample.at_time 1010 Sample.peer))
              (JStr "tok-a")
              (mkState Sample.warm (Sample.at_time 1010 Sample.peer))
              (Return (Sample.token_document (JStr "tok-a") (JNum 120)))
              (mkState Sample.warm
                 (mkWorld 1012 Sample.peer
                    [api_request Sample.cfg (JStr "tok-a") "GET"
                       "/gl-accounts/1205" None None]))
              eq_refl eq_refl)
    as (req & Hsent & _ & Hurl & _).
  exists req. split; [exact Hsent | exact Hurl].
Defined.

(** [update_gl_account] puts into the PATCH body exactly the fields whose
    argument is not [None] ([active=False] is sent); with every argument
    [None] it still sends the PATCH, with an empty object as body. *)
Theorem update_gl_account_body cfg account_id name number description
    account_type subtype active s tok s1 o s' :
  get_access_token cfg s = (Return tok, s1) ->
  update_gl_account cfg account_id name number description account_type
    subtype active s = (o, s') ->
  exists body,
    sent (world s')
    = sent (world s1)
      ++ [api_request cfg tok "PATCH" ("/gl-accounts/" ++ str_of_int account_id)
            None (Some (JObj body))]
    /\ (forall key arg,
           In (key, arg)
             [("name", name); ("number", number); ("description", description);
              ("type", account_type); ("subtype", subtype); ("active", active)] ->
           lookup key body = if is_not_none arg then Some arg else None)
    /\ (forall key v, In (key, v) body -> v <> JNull)
    /\ (name = JNull -> number = JNull -> description = JNull ->
        account_type = JNull -> subtype = JNull -> active = JNull ->
        body = []).
Proof.
  intros Htok Hcall. unfold update_gl_account in Hcall.
  eexists. split; [apply (sent_after_api_request _ _ _ _ _ _ _ _ _ _ Htok Hcall) |].
  split; [| split].
  - intros key arg Hin. cbn [In] in Hin.
    repeat (destruct Hin as [Hin | Hin];
            [injection Hin as <- <-; rewrite !lookup_set_if; cbn;
             match goal with
             | |- _ = (if is_not_none ?a then _ else _) => destruct (is_not_none a)
             end; reflexivity |]).
    contradiction.
  - intros key v Hin.
    repeat (apply in_set_if in Hin; destruct Hin as [Hin | (Hc & _ & ->)];
            [| intros ->; discriminate]).
    destruct Hin.
  - intros -> -> -> -> -> ->. reflexivity.
Qed.

Lemma update_gl_account_body_witness :
  exists body,
    [api_request Sample.cfg (JStr "tok-a") "PATCH" "/gl-accounts/1205" None
       (Some (JObj [("active", JBool false)]))]
    = [] ++ [api_request Sample.cfg (JStr "tok-a") "PATCH"
               ("/gl-accounts/" ++ str_of_int 1205) None (Some (JObj body))]
    /\ lookup "active" body = Some (JBool false)
    /\ lookup "name" body = None.
Proof.
  destruct (update_gl_account_body Sample.cfg 1205
              JNull JNull JNull JNull JNull (JBool false)
              (mkState Sample.warm (Sample.at_time 1010 Sample.peer))
              (JStr "tok-a")
              (mkState Sample.warm (Sample.at_time 1010 Sample.peer))
              (Return (Sample.token_document (JStr "tok-a") (JNum 120)))
              (mkState Sample.warm
                 (mkWorld 1012 Sample.peer
                    [api_request Sample.cfg (JStr "tok-a") "PATCH"
                       "/gl-accounts/1205" None
                       (Some (JObj [("active", JBool false)]))]))
              eq_refl eq_refl)
    as (body & Hsent & Hkeys & _).
  exists body. split; [exact Hsent |]. split.
  - apply (Hkeys "active" (JBool false)). cbn. auto 7.
  - apply (Hkeys "name" JNull). cbn. auto.
Defined.

End AccountingTools.

(* ------------------------------------------------------------------ *)
(** ** The life of a cached token *)

Module CacheLifecycle.
Import Accounting AccountingFacts.

(** How [on_response] can raise: before anything is stored, or between
    the two assignments. *)
Lemma on_response_raises r s e s' :
  on_response r s = (Raise e, s') ->
  world s' = world s
  /\ _token_expires_at (globals s') = _token_expires_at (globals s)
  /\ (globals s' = globals s
      \/ e = KeyError "expires_in"
      \/ e = OverflowError
      \/ exists v, e = TypeError (BadOperand v)).
Proof.
  unfold on_response, response_json.
  destruct (status_code r =? 200); cbn;
    [| intros H; inversion H; auto].
  destruct (json_body r) as [[ | b | k | str | items | fields] | ]; cbn;
    try (intros H; inversion H; auto; fail).
  destruct (lookup "access_token" fields) as [tok | ]; cbn;
    [| intros H; inversion H; auto].
  destruct (lookup "expires_in" fields) as [lifetime | ]; cbn;
    [| intros H; inversion H; auto].
  unfold add_number.
  destruct (as_number lifetime) as [n | ]; cbn;
    [destruct (float_of_int n) as [x | ]; cbn |];
    intros H; inversion H; repeat split; eauto.
Qed.

(** A call either leaves the state alone or is a fetch. *)
Lemma call_cases cfg s o s' :
  get_access_token cfg s = (o, s') ->
  (s' = s /\ (o = Raise (env_error cfg) \/ o = Return (_access_token (globals s))))
  \/ (config_ok cfg = true
      /\ cache_hit (globals s) (now (world s)) = false
      /\ bind (send (token_request cfg)) on_response s = (o, s')).
Proof.
  intros Hcall. destruct (config_ok cfg) eqn:Hc.
  - destruct (cache_hit (globals s) (now (world s))) eqn:Hh.
    + rewrite (hit _ _ Hc Hh) in Hcall. inversion Hcall. auto.
    + rewrite (miss _ _ Hc Hh) in Hcall. auto.
  - rewrite (missing_config _ _ Hc) in Hcall. inversion Hcall. auto.
Qed.

(** A call of [get_access_token] sends at most one request, and that one
    is the token POST: afterwards the state is either exactly what it was
    or the log is one token request longer. *)
Theorem token_helper_sends_at_most_one_request cfg s o s' :
  get_access_token cfg s = (o, s') ->
  s' = s \/ sent (world s') = sent (world s) ++ [token_request cfg].
Proof.
  intros Hcall. destruct (call_cases _ _ _ _ Hcall) as [[Hs _] | (_ & _ & Hf)].
  - left. exact Hs.
  - right. apply (TokenCache.fetch_steps _ _ _ _ Hf).
Qed.

Lemma token_helper_sends_at_most_one_request_witness :
  mkState Sample.warm (Sample.at_time 1010 Sample.peer)
  = mkState Sample.warm (Sample.at_time 1010 Sample.peer)
  \/ sent (Sample.at_time 1010 Sample.peer)
     = sent (Sample.at_time 1010 Sample.peer) ++ [token_request Sample.cfg].
Proof.
  apply (token_helper_sends_at_most_one_request Sample.cfg
           (mkState Sample.warm (Sample.at_time 1010 Sample.peer))
           (Return (JStr "tok-a"))
           (mkState Sample.warm (Sample.at_time 1010 Sample.peer))).
  reflexivity.
Defined.

(** A call that raises never changes [_token_expires_at]; it leaves
    [_access_token] alone too, unless the error is one of the three that
    line 74 can raise, which comes after the token was assigned: the
    [KeyError] of a reply without [expires_in], the [OverflowError] of an
    [expires_in] too large to convert to a float, or the [TypeError] of
    an [expires_in] that is not a number. *)
Theorem failed_call_keeps_expiry cfg s e s' :
  get_access_token cfg s = (Raise e, s') ->
  _token_expires_at (globals s') = _token_expires_at (globals s)
  /\ (globals s' = globals s
      \/ e = KeyError "expires_in"
      \/ e = OverflowError
      \/ exists v, e = TypeError (BadOperand v)).
Proof.
  intros Hcall. destruct (call_cases _ _ _ _ Hcall) as [[Hs _] | (_ & _ & Hf)].
  - subst s'. auto.
  - destruct (TokenCache.fetch_steps _ _ _ _ Hf)
      as [_ [(msg & _ & _ & Hg) | (r & s1 & _ & Hg & _ & Hon)]].
    + rewrite Hg. auto.
    + destruct (on_response_raises _ _ _ _ Hon) as (_ & He & Hcases).
      rewrite <- Hg. split; [exact He | exact Hcases].
Qed.

Lemma failed_call_keeps_expiry_witness :
  _token_expires_at Sample.warm = _token_expires_at Sample.warm
  /\ (Sample.warm = Sample.warm
      \/ Exception "Failed to get access token: 401" = KeyError "expires_in"
      \/ Exception "Failed to get access token: 401" = OverflowError
      \/ exists v, Exception "Failed to get access token: 401"
                   = TypeError (BadOperand v)).
Proof.
  apply (failed_call_keeps_expiry Sample.cfg
           (mkState Sample.warm (Sample.at_time 2000 (Sample.refusing 401)))
           (Exception "Failed to get access token: 401")
           (mkState Sample.warm
              (mkWorld 2001 (Sample.refusing 401) [token_request Sample.cfg]))).
  reflexivity.
Defined.

(** The two globals are not assigned together: a 200 reply that has an
    [access_token] but no [expires_in] makes the call raise [KeyError],
    and by then the new token is already in [_access_token], paired with
    the expiry of the token it replaced. *)
Theorem token_stored_before_expiry_is_read cfg s r fields tok o s' :
  config_ok cfg = true ->
  cache_hit (globals s) (now (world s)) = false ->
  next_reply s = Replied r ->
  status_code r = 200 ->
  json_body r = Some (JObj fields) ->
  lookup "access_token" fields = Some tok ->
  lookup "expires_in" fields = None ->
  get_access_token cfg s = (o, s') ->
  o = Raise (KeyError "expires_in")
  /\ globals s' = mkGlobals tok (_token_expires_at (globals s)).
Proof.
  intros Hc Hm Hr Hs Hb Hk He Hcall.
  rewrite (miss _ _ Hc Hm), (send_answered _ _ _ _ Hr) in Hcall.
  unfold on_response, response_json in Hcall.
  rewrite Hs, Hb in Hcall. cbn in Hcall. rewrite Hk in Hcall. cbn in Hcall.
  rewrite He in Hcall. cbn in Hcall. inversion Hcall. auto.
Qed.

Lemma token_stored_before_expiry_is_read_witness :
  Raise (A := json) (KeyError "expires_in") = Raise (KeyError "expires_in")
  /\ mkGlobals (JStr "tok-c") 1062
     = mkGlobals (JStr "tok-c") (_token_expires_at Sample.warm).
Proof.
  apply (token_stored_before_expiry_is_read Sample.cfg
           (mkState Sample.warm
              (Sample.at_time 2000
                 (Sample.always
                    (mkResponse 200 "(token document)"
                       (Some (JObj [("access_token", JStr "tok-c")]))))))
           (mkResponse 200 "(token document)"
              (Some (JObj [("access_token", JStr "tok-c")])))
           [("access_token", JStr "tok-c")] (JStr "tok-c")
           (Raise (KeyError "expires_in"))
           (mkState (mkGlobals (JStr "tok-c") 1062)
              (mkWorld 2001
                 (Sample.always
                    (mkResponse 200 "(token document)"
                       (Some (JObj [("access_token", JStr "tok-c")]))))
                 [token_request Sample.cfg])));
    reflexivity.
Defined.


(** Line 74 at the edge of the exact range: with the clock at 2^53 - 57
    and [expires_in = 60], the sum [time.time() + 60] is 2^53 + 3, which
    rounds to 2^53 + 4, so the stored expiry is one second after the
    fetch and a call made at the time of the fetch is a hit. *)
Example rounded_sum_outlives_a_60_second_token :
  get_access_token Sample.cfg
    (mkState initial
       (Sample.at_time 9007199254740934
          (Sample.always (Sample.granted "tok-s" 60))))
  = (Return (JStr "tok-s"),
     mkState (mkGlobals (JStr "tok-s") 9007199254740936)
       (mkWorld 9007199254740935 (Sample.always (Sample.granted "tok-s" 60))
          [token_request Sample.cfg]))
  /\ cache_hit (mkGlobals (JStr "tok-s") 9007199254740936) 9007199254740935
     = true.
Proof. split; vm_compute; reflexivity. Qed.





(** With an incomplete configuration the cache never leaves its initial
    state: [_access_token] stays [None] and [_token_expires_at] stays 0. *)
Theorem incomplete_configuration_never_caches cfg g :
  reachable cfg g -> config_ok cfg = false -> g = initial.
Proof.
  intros Hr Hc. induction Hr as [ | g w o s' Hr IH Hcall]; [reflexivity |].
  rewrite (missing_config _ _ Hc) in Hcall. injection Hcall as _ <-.
  exact IH.
Qed.

Lemma incomplete_configuration_never_caches_witness :
  globals (mkState initial (Sample.at_time 1000 Sample.peer)) = initial.
Proof.
  apply (incomplete_configuration_never_caches Sample.cfg_incomplete).
  - exact (reach_call Sample.cfg_incomplete initial
             (Sample.at_time 1000 Sample.peer) _ _ (reach_initial _) eq_refl).
  - reflexivity.
Defined.

End CacheLifecycle.

(* ------------------------------------------------------------------ *)
(** ** One caller after the other *)

Module Handover.
Import Accounting Interleaving.




End Handover.

(* ------------------------------------------------------------------ *)
(** ** The tools of servicetitan_crm.py *)

Module CrmTools.

(** A crm call that got its token has logged exactly the token request. *)
Lemma token_logged cfg s tok s1 :
  Crm.get_access_token cfg s = (Return tok, s1) ->
  sent (world s1) = sent (world s) ++ [Crm.token_request cfg].
Proof.
  intros H. pose proof (SingleAttempt.crm_returns_config _ _ _ _ H) as Hc.
  destruct (SingleAttempt.crm_call _ _ _ _ Hc H) as [Hs _]. rewrite Hs.
  reflexivity.
Qed.

(** The 404 test of the wrappers is about the resource reply only: when
    the token endpoint itself answers 404 (or any other 4xx or 5xx),
    [get_booking_by_id] raises httpx's [HTTPStatusError] for that reply and
    never contacts the bookings endpoint. *)
Theorem token_endpoint_error_is_raised cfg id s r o s' :
  config_ok cfg = true ->
  next_reply s = Replied r ->
  is_error (status_code r) = true ->
  Crm.get_booking_by_id cfg id s = (o, s') ->
  o = Raise (HTTPStatusError r)
  /\ sent (world s') = sent (world s) ++ [Crm.token_request cfg].
Proof.
  intros Hc Hr Herr Hcall.
  assert (Htok : Crm.get_access_token cfg s
                 = (Raise (HTTPStatusError r),
                    after_round_trip (Crm.token_request cfg) s)).
  { rewrite (Configuration.crm_fetch _ _ Hc), (send_answered _ _ _ _ Hr).
    unfold Crm.on_response, bind, raise_for_status.
    rewrite (ErrorStatus.error_not_success _ Herr). reflexivity. }
  unfold Crm.get_booking_by_id in Hcall.
  rewrite (bind_raises _ _ _ _ _ Htok) in Hcall. inversion Hcall. auto.
Qed.

Lemma token_endpoint_error_is_raised_witness :
  Raise (A := json) (HTTPStatusError (mkResponse 404 "(no such tag)" None))
  = Raise (HTTPStatusError (mkResponse 404 "(no such tag)" None))
  /\ [Crm.token_request Sample.cfg] = [] ++ [Crm.token_request Sample.cfg].
Proof.
  apply (token_endpoint_error_is_raised Sample.cfg 31
           (mkState tt
              (Sample.at_time 1000
                 (Sample.always (mkResponse 404 "(no such tag)" None))))
           (mkResponse 404 "(no such tag)" None)
           (Raise (HTTPStatusError (mkResponse 404 "(no such tag)" None)))
           (mkState tt
              (mkWorld 1001 (Sample.always (mkResponse 404 "(no such tag)" None))
                 [Crm.token_request Sample.cfg])));
    reflexivity.
Defined.

(** [get_booking_by_id], once it has its token, sends [GET
    .../bookings/<id>] with that token as bearer: two requests in all.  A
    404 reply gives the dict with [error] and [status_code] (the body of
    the reply is dropped), a 2xx reply gives its parsed JSON, any other 4xx
    or 5xx reply raises [HTTPStatusError]. *)
Theorem booking_lookup_outcomes cfg id s tok s1 r o s' :
  Crm.get_access_token cfg s = (Return tok, s1) ->
  next_reply s1 = Replied r ->
  Crm.get_booking_by_id cfg id s = (o, s') ->
  sent (world s')
  = sent (world s)
    ++ [Crm.token_request cfg;
        mkRequest "GET"
          ("https://api.servicetitan.io/crm/v2/tenant/" ++ env_str (TENANT_ID cfg)
           ++ "/bookings/" ++ str_of_int id)
          [("Authorization", Bearer tok); ("ST-App-Key", Env (APP_KEY cfg))]
          None [] None]
  /\ (status_code r = 404 ->
      o = Return (JObj [("error", JStr "Not found"); ("status_code", JNum 404)]))
  /\ (is_success (status_code r) = true ->
      o = match json_body r with
          | Some v => Return v
          | None => Raise JSONDecodeError
          end)
  /\ (is_error (status_code r) = true -> status_code r <> 404 ->
      o = Raise (HTTPStatusError r)).
Proof.
  intros Htok Hr Hcall. unfold Crm.get_booking_by_id in Hcall.
  rewrite (bind_returns _ _ _ _ _ Htok), (send_answered _ _ _ _ Hr) in Hcall.
  unfold bind, raise_for_status, response_json in Hcall.
  split; [| split; [| split]].
  - assert (Hs : s' = after_round_trip
                        (mkRequest "GET"
                           (Crm.CRM_BASE_URL ++ "/tenant/" ++ env_str (TENANT_ID cfg)
                            ++ "/bookings/" ++ str_of_int id)
                           (Crm.auth_headers cfg tok) None [] None) s1).
    { destruct (status_code r =? 404); [now inversion Hcall |].
      destruct (is_success (status_code r));
        [destruct (json_body r) |]; now inversion Hcall. }
    rewrite Hs. cbn. rewrite (token_logged _ _ _ _ Htok), <- List.app_assoc.
    reflexivity.
  - intros H404. rewrite H404 in Hcall. now inversion Hcall.
  - intros Hok.
    assert (Hne : (status_code r =? 404) = false).
    { apply Z.eqb_neq. intros H. rewrite H in Hok. discriminate. }
    rewrite Hne, Hok in Hcall. destruct (json_body r); now inversion Hcall.
  - intros Herr Hne. apply Z.eqb_neq in Hne.
    rewrite Hne, (ErrorStatus.error_not_success _ Herr) in Hcall.
    now inversion Hcall.
Qed.

Lemma booking_lookup_outcomes_witness :
  Return (JObj [("error", JStr "Not found"); ("status_code", JNum 404)])
  = Return (JObj [("error", JStr "Not found"); ("status_code", JNum 404)]).
Proof.
  destruct (booking_lookup_outcomes Sample.cfg 31
              (mkState tt (Sample.at_time 1000 Sample.tag_peer))
              (JStr "tok-a")
              (mkState tt
                 (mkWorld 1002 Sample.tag_peer [Crm.token_request Sample.cfg]))
              (mkResponse 404 "(no such tag)" None)
              (Return (JObj [("error", JStr "Not found"); ("status_code", JNum 404)]))
              (mkState tt
                 (mkWorld 1003 Sample.tag_peer
                    [Crm.token_request Sample.cfg;
                     mkRequest "GET"
                       "https://api.servicetitan.io/crm/v2/tenant/4242/bookings/31"
                       [("Authorization", Bearer (JStr "tok-a"));
                        ("ST-App-Key", Env (Some "app-key"))]
                       None [] None]))
              eq_refl eq_refl eq_refl)
    as (_ & H404 & _).
  apply H404. reflexivity.
Defined.

(** [get_booking_provider_tags] sends a filter whenever the argument is
    not [None]: a key of the query is bound to its argument unless that is
    [None], so [0], [False] and the empty string are transmitted. *)
Theorem booking_tags_query_keeps_all_but_none cfg
    name ids page page_size include_total created_before created_on_or_after
    modified_before modified_on_or_after sort s tok s1 o s' :
  Crm.get_access_token cfg s = (Return tok, s1) ->
  Crm.get_booking_provider_tags cfg name ids page page_size include_total
    created_before created_on_or_after modified_before modified_on_or_after
    sort s = (o, s') ->
  exists query,
    sent (world s')
    = sent (world s1)
      ++ [mkRequest "GET" (Crm.tags_url cfg) (Crm.auth_headers cfg tok)
            (Some query) [] None]
    /\ (forall key arg,
           In (key, arg)
             [("name", name); ("ids", ids); ("page", page);
              ("pageSize", page_size); ("includeTotal", include_total);
              ("createdBefore", created_before);
              ("createdOnOrAfter", created_on_or_after);
              ("modifiedBefore", modified_before);
              ("modifiedOnOrAfter", modified_on_or_after); ("sort", sort)] ->
           lookup key query = if is_not_none arg then Some arg else None)
    /\ (forall key v, In (key, v) query -> v <> JNull).
Proof.
  intros Htok Hcall. unfold Crm.get_booking_provider_tags in Hcall.
  rewrite (bind_returns _ _ _ _ _ Htok) in Hcall.
  eexists. split; [| split].
  - apply send_then_state in Hcall; [rewrite Hcall; reflexivity |].
    intros r st o' st'. unfold bind, raise_for_status, response_json.
    destruct (is_success (status_code r));
      [destruct (json_body r) |]; now inversion 1.
  - intros key arg Hin. cbn [In] in Hin.
    repeat (destruct Hin as [Hin | Hin];
            [injection Hin as <- <-; rewrite !lookup_set_if; cbn;
             match goal with
             | |- _ = (if is_not_none ?a then _ else _) => destruct (is_not_none a)
             end; reflexivity |]).
    contradiction.
  - intros key v Hin.
    repeat (apply in_set_if in Hin; destruct Hin as [Hin | (Hc & _ & ->)];
            [| intros ->; discriminate]).
    destruct Hin.
Qed.

Lemma booking_tags_query_keeps_all_but_none_witness :
  exists query,
    lookup "page" query = Some (JNum 0)
    /\ lookup "includeTotal" query = Some (JBool false)
    /\ lookup "name" query = None.
Proof.
  destruct (booking_tags_query_keeps_all_but_none Sample.cfg
              JNull JNull (JNum 0) JNull (JBool false) JNull JNull JNull JNull JNull
              (mkState tt (Sample.at_time 1000 Sample.tag_peer))
              (JStr "tok-a")
              (mkState tt
                 (mkWorld 1002 Sample.tag_peer [Crm.token_request Sample.cfg]))
              (Raise (HTTPStatusError (mkResponse 404 "(no such tag)" None)))
              (mkState tt
                 (mkWorld 1003 Sample.tag_peer
                    [Crm.token_request Sample.cfg;
                     mkRequest "GET" (Crm.tags_url Sample.cfg)
                       (Crm.auth_headers Sample.cfg (JStr "tok-a"))
                       (Some [("page", JNum 0); ("includeTotal", JBool false)])
                       [] None]))
              eq_refl eq_refl)
    as (query & _ & Hkeys & _).
  exists query. split; [| split].
  - apply (Hkeys "page" (JNum 0)). cbn. auto.
  - apply (Hkeys "includeTotal" (JBool false)). cbn. auto 6.
  - apply (Hkeys "name" JNull). cbn. auto.
Defined.

(** [update_booking_provider_tag] sends [PATCH
    .../booking-provider-tags/<id>] whose body holds [tagName] and
    [description] exactly when they are not [None]; called with neither,
    it still sends the PATCH, with an empty object. *)
Theorem tag_update_body cfg id tag_name description s tok s1 o s' :
  Crm.get_access_token cfg s = (Return tok, s1) ->
  Crm.update_booking_provider_tag cfg id tag_name description s = (o, s') ->
  exists body,
    sent (world s')
    = sent (world s1)
      ++ [mkRequest "PATCH" (Crm.tags_url cfg ++ "/" ++ str_of_int id)
            (Crm.auth_headers cfg tok) None [] (Some (JObj body))]
    /\ lookup "tagName" body = (if is_not_none tag_name then Some tag_name else None)
    /\ lookup "description" body
       = (if is_not_none description then Some description else None)
    /\ (tag_name = JNull -> description = JNull -> body = []).
Proof.
  intros Htok Hcall. unfold Crm.update_booking_provider_tag in Hcall.
  rewrite (bind_returns _ _ _ _ _ Htok) in Hcall.
  eexists. split; [| split; [| split]].
  - apply send_then_state in Hcall; [rewrite Hcall; reflexivity |].
    intros r st o' st'. unfold bind, raise_for_status, response_json.
    destruct (status_code r =? 404); [now inversion 1 |].
    destruct (is_success (status_code r));
      [destruct (json_body r) |]; now inversion 1.
  - rewrite !lookup_set_if. cbn.
    destruct (is_not_none tag_name); reflexivity.
  - rewrite !lookup_set_if. cbn.
    destruct (is_not_none tag_name), (is_not_none description); reflexivity.
  - intros -> ->. reflexivity.
Qed.

Lemma tag_update_body_witness :
  exists body,
    [Crm.token_request Sample.cfg;
     mkRequest "PATCH" (Crm.tags_url Sample.cfg ++ "/" ++ str_of_int 5)
       (Crm.auth_headers Sample.cfg (JStr "tok-a")) None [] (Some (JObj []))]
    = [Crm.token_request Sample.cfg]
      ++ [mkRequest "PATCH" (Crm.tags_url Sample.cfg ++ "/" ++ str_of_int 5)
            (Crm.auth_headers Sample.cfg (JStr "tok-a")) None []
            (Some (JObj body))]
    /\ body = [].
Proof.
  destruct (tag_update_body Sample.cfg 5 JNull JNull
              (mkState tt (Sample.at_time 1000 Sample.tag_peer))
              (JStr "tok-a")
              (mkState tt
                 (mkWorld 1002 Sample.tag_peer [Crm.token_request Sample.cfg]))
              (Return Crm.not_found)
              (mkState tt
                 (mkWorld 1003 Sample.tag_peer
                    [Crm.token_request Sample.cfg;
                     mkRequest "PATCH"
                       (Crm.tags_url Sample.cfg ++ "/" ++ str_of_int 5)
                       (Crm.auth_headers Sample.cfg (JStr "tok-a")) None []
                       (Some (JObj []))]))
              eq_refl eq_refl)
    as (body & Hsent & _ & _ & Hempty).
  exists body. split; [exact Hsent | now apply Hempty].
Defined.

End CrmTools.

(* ------------------------------------------------------------------ *)
(** ** The tools of servicetitan_service_agreements.py *)

Module AgreementTools.
Import ServiceAgreements.

(** [get_service_agreement] makes one round trip and no other: a GET to
    [.../service-agreements/<id>] whose bearer is the [API_KEY] read from
    the environment; the token endpoint is never contacted.  The id reads
    back from the URL, and whatever the status of the reply (404 and 500
    included) the tool returns the parsed body; it raises only when the
    body is not JSON or the transport fails. *)
Theorem agreement_lookup_is_one_round_trip cfg agreement_id s o s' :
  get_service_agreement cfg agreement_id s = (o, s') ->
  let base := ("https://api.servicetitan.io/service-agreements/v2/tenant/"
               ++ env_str (TENANT_ID cfg) ++ "/service-agreements/")%string in
  sent (world s')
  = sent (world s)
    ++ [mkRequest "GET" (base ++ str_of_int agreement_id)
          [("Authorization", Lit ("Bearer " ++ env_str (API_KEY cfg)));
           ("ST-App-Key", Env (APP_KEY cfg));
           ("Content-Type", Lit "application/json")]
          None [] None]
  /\ int_of_str (drop (String.length base) (base ++ str_of_int agreement_id))
     = Some agreement_id
  /\ (forall r, next_reply s = Replied r ->
        o = match json_body r with
            | Some v => Return v
            | None => Raise JSONDecodeError
            end)
  /\ (forall msg, next_reply s = Failed msg -> o = Raise (TransportError msg)).
Proof.
  intros Hcall base. unfold get_service_agreement in Hcall.
  split; [| split; [| split]].
  - apply send_then_state in Hcall.
    + rewrite Hcall. unfold base, BASE_URL, after_round_trip.
      cbn [world sent]. rewrite !append_assoc. reflexivity.
    + intros r st o' st'. unfold response_json.
      destruct (json_body r); now inversion 1.
  - rewrite drop_append. apply int_of_str_of_int.
  - intros r Hr. rewrite (send_answered _ _ _ _ Hr) in Hcall.
    unfold response_json in Hcall. destruct (json_body r); now inversion Hcall.
  - intros msg Hm.
    destruct (send_then _ _ _ _ _ Hcall) as [(msg' & Hm' & Ho & _) | (r & Hr & _)].
    + rewrite Hm in Hm'. now inversion Hm'.
    + rewrite Hm in Hr. discriminate.
Qed.

Lemma agreement_lookup_is_one_round_trip_witness :
  Return (JObj [("title", JStr "Internal Server Error"); ("status", JNum 500)])
  = match json_body Sample.server_error with
    | Some v => Return v
    | None => Raise JSONDecodeError
    end.
Proof.
  destruct (agreement_lookup_is_one_round_trip Sample.sa_cfg 12
              (mkState tt (Sample.at_time 1000 (Sample.always Sample.server_error)))
              (Return (JObj [("title", JStr "Internal Server Error");
                             ("status", JNum 500)]))
              (mkState tt
                 (mkWorld 1001 (Sample.always Sample.server_error)
                    [mkRequest "GET"
                       "https://api.servicetitan.io/service-agreements/v2/tenant/4242/service-agreements/12"
                       (HEADERS Sample.sa_cfg) None [] None]))
              eq_refl)
    as (_ & _ & Hreply & _).
  apply Hreply. reflexivity.
Defined.

End AgreementTools.

(* ------------------------------------------------------------------ *)
(** ** servicetitan_core.py *)

Module CoreTools.

Lemma core_fetch cfg s :
  config_ok cfg = true ->
  Core.get_access_token cfg s
  = bind (send (Core.token_request cfg))
      (fun response =>
         raise_for_status response ;;
         token_response_json <- response_json response ;;
         access_token <- Core.dict_get token_response_json "access_token" ;;
         if negb (is_str access_token)
         then raise (TypeError (TokenNotStr access_token))
         else ret access_token) s.
Proof.
  intros Hc. unfold Core.get_access_token.
  rewrite Configuration.any_missing, Hc. reflexivity.
Qed.

(** The helper of servicetitan_core.py returns nothing but strings: when
    it returns, the value is a [str], and it is the [access_token] of the
    JSON object in the reply. *)
Theorem core_token_is_a_string cfg s v s' :
  Core.get_access_token cfg s = (Return v, s') ->
  is_str v = true
  /\ exists r fields,
       next_reply s = Replied r
       /\ json_body r = Some (JObj fields)
       /\ lookup "access_token" fields = Some v.
Proof.
  intros Hcall.
  assert (Hc : config_ok cfg = true).
  { destruct (config_ok cfg) eqn:Hc; [reflexivity |].
    unfold Core.get_access_token in Hcall.
    rewrite Configuration.any_missing, Hc in Hcall. discriminate. }
  rewrite (core_fetch _ _ Hc) in Hcall.
  destruct (send_then _ _ _ _ _ Hcall) as [(msg & _ & Ho & _) | (r & Hr & Hk)];
    [discriminate |].
  unfold bind, raise_for_status, response_json, Core.dict_get in Hk.
  destruct (is_success (status_code r)); cbn in Hk; [| discriminate].
  destruct (json_body r) as [[ | b | k | str | items | fields] | ] eqn:Hb;
    cbn in Hk; try discriminate.
  destruct (lookup "access_token" fields) as [x | ] eqn:Hx; cbn in Hk;
    [| discriminate].
  destruct (is_str x) eqn:Hstr; cbn in Hk; [| discriminate].
  inversion Hk; subst. split; [exact Hstr |]. exists r, fields. auto.
Qed.

Lemma core_token_is_a_string_witness :
  is_str (JStr "tok-a") = true
  /\ exists r fields,
       next_reply (mkState tt (Sample.at_time 1000 Sample.peer)) = Replied r
       /\ json_body r = Some (JObj fields)
       /\ lookup "access_token" fields = Some (JStr "tok-a").
Proof.
  apply (core_token_is_a_string Sample.cfg
           (mkState tt (Sample.at_time 1000 Sample.peer))
           (JStr "tok-a")
           (mkState tt (mkWorld 1002 Sample.peer [Core.token_request Sample.cfg]))).
  reflexivity.
Defined.

(** In servicetitan_core.py a 2xx reply whose JSON object has no
    [access_token], or one that is not a string, makes the helper raise
    [TypeError] about that value ([None] when the key is absent), after
    its single token request. *)
Theorem core_rejects_unusable_token cfg s r fields o s' :
  config_ok cfg = true ->
  next_reply s = Replied r ->
  is_success (status_code r) = true ->
  json_body r = Some (JObj fields) ->
  (forall v, lookup "access_token" fields = Some v -> is_str v = false) ->
  Core.get_access_token cfg s = (o, s') ->
  o = Raise (TypeError (TokenNotStr
                          (match lookup "access_token" fields with
                           | Some v => v
                           | None => JNull
                           end)))
  /\ sent (world s') = sent (world s) ++ [Core.token_request cfg].
Proof.
  intros Hc Hr Hok Hb Hbad Hcall.
  rewrite (core_fetch _ _ Hc), (send_answered _ _ _ _ Hr) in Hcall.
  unfold bind, raise_for_status, response_json, Core.dict_get in Hcall.
  rewrite Hok in Hcall. cbn in Hcall. rewrite Hb in Hcall. cbn in Hcall.
  destruct (lookup "access_token" fields) as [x | ]; cbn in Hcall.
  - rewrite (Hbad x eq_refl) in Hcall. cbn in Hcall. inversion Hcall. auto.
  - inversion Hcall. auto.
Qed.

Lemma core_rejects_unusable_token_witness :
  Raise (A := json) (TypeError (TokenNotStr (JNum 12345)))
  = Raise (TypeError (TokenNotStr
                        (match lookup "access_token"
                                 [("access_token", JNum 12345);
                                  ("token_type", JStr "Bearer");
                                  ("expires_in", JNum 3600)] with
                         | Some v => v
                         | None => JNull
                         end)))
  /\ [Core.token_request Sample.cfg] = [] ++ [Core.token_request Sample.cfg].
Proof.
  apply (core_rejects_unusable_token Sample.cfg
           (mkState tt (Sample.at_time 1000 (Sample.always Sample.numeric_grant)))
           Sample.numeric_grant
           [("access_token", JNum 12345); ("token_type", JStr "Bearer");
            ("expires_in", JNum 3600)]
           (Raise (TypeError (TokenNotStr (JNum 12345))))
           (mkState tt
              (mkWorld 1001 (Sample.always Sample.numeric_grant)
                 [Core.token_request Sample.cfg]))).
  - reflexivity.
  - reflexivity.
  - reflexivity.
  - reflexivity.
  - intros v H. cbn in H. injection H as <-. reflexivity.
  - reflexivity.
Defined.

(** A key that is not in a dict is not in what a filter keeps of it. *)
Lemma lookup_filter_none (keep : string * json -> bool) key l :
  lookup key l = None -> lookup key (List.filter keep l) = None.
Proof.
  induction l as [ | [k v] l IH]; cbn; [reflexivity |].
  destruct (k =? key)%string eqn:Hk; [discriminate |].
  intros H. destruct (keep (k, v)); cbn; [rewrite Hk |]; auto.
Qed.

Lemma lookup_absent key l :
  ~ In key (List.map fst l) -> lookup key l = None.
Proof.
  induction l as [ | [k v] l IH]; cbn; [reflexivity |].
  intros H. destruct (String.eqb_spec k key); [tauto | apply IH; tauto].
Qed.

(** In a dict literal whose keys are all different, dropping the [None]
    values leaves each key bound to its value unless that value is
    [None]. *)
Lemma lookup_without_none key l :
  NoDup (List.map fst l) ->
  lookup key (List.filter (fun kv => is_not_none (snd kv)) l)
  = match lookup key l with
    | Some v => if is_not_none v then Some v else None
    | None => None
    end.
Proof.
  induction l as [ | [k v] l IH]; cbn; [reflexivity |].
  intros Hnd. inversion Hnd as [ | ? ? Hnotin Hnd']; subst.
  destruct (String.eqb_spec k key) as [-> | Hne].
  - destruct (is_not_none v); cbn.
    + now rewrite String.eqb_refl.
    + apply lookup_filter_none, lookup_absent, Hnotin.
  - destruct (is_not_none v); cbn.
    + destruct (String.eqb_spec k key); [contradiction | apply IH, Hnd'].
    + apply IH, Hnd'.
Qed.

(** [get_appointments] builds the full dict of its eighteen filters and
    drops the entries that are [None]: each key of the query is bound to
    its argument unless that is [None], so [False], [0] and the empty
    string are sent, and no [None] ever is. *)
Theorem appointments_query_drops_only_none cfg
    ids job_id project_id number status starts_on_or_after starts_before
    technician_id customer_id unused modified_before modified_on_or_after
    created_on_or_after created_before page page_size include_total sort
    s tok s1 o s' :
  Core.get_access_token cfg s = (Return tok, s1) ->
  Core.get_appointments cfg ids job_id project_id number status
    starts_on_or_after starts_before technician_id customer_id unused
    modified_before modified_on_or_after created_on_or_after created_before
    page page_size include_total sort s = (o, s') ->
  exists query,
    sent (world s')
    = sent (world s1)
      ++ [mkRequest "GET"
            ("https://api.servicetitan.io/jpm/v2/tenant/"
             ++ env_str (TENANT_ID cfg) ++ "/appointments")
            [("Authorization", Bearer tok); ("ST-App-Key", Env (APP_KEY cfg))]
            (Some query) [] None]
    /\ (forall key arg,
           In (key, arg)
             [("ids", ids); ("jobId", job_id); ("projectId", project_id);
              ("number", number); ("status", status);
              ("startsOnOrAfter", starts_on_or_after);
              ("startsBefore", starts_before); ("technicianId", technician_id);
              ("customerId", customer_id); ("unused", unused);
              ("modifiedBefore", modified_before);
              ("modifiedOnOrAfter", modified_on_or_after);
              ("createdOnOrAfter", created_on_or_after);
              ("createdBefore", created_before); ("page", page);
              ("pageSize", page_size); ("includeTotal", include_total);
              ("sort", sort)] ->
           lookup key query = if is_not_none arg then Some arg else None)
    /\ (forall key v, In (key, v) query -> v <> JNull).
Proof.
  intros Htok Hcall. unfold Core.get_appointments in Hcall.
  rewrite (bind_returns _ _ _ _ _ Htok) in Hcall.
  eexists. split; [| split].
  - apply send_then_state in Hcall; [rewrite Hcall; reflexivity |].
    intros r st o' st'. unfold bind, raise_for_status, response_json.
    destruct (is_success (status_code r));
      [destruct (json_body r) |]; now inversion 1.
  - intros key arg Hin. rewrite lookup_without_none.
    + cbn [In] in Hin.
      repeat (destruct Hin as [Hin | Hin];
              [injection Hin as <- <-; reflexivity |]).
      contradiction.
    + cbn [List.map fst].
      match goal with
      | |- NoDup ?keys =>
          replace keys with (List.nodup String.string_dec keys)
            by (vm_compute; reflexivity)
      end.
      apply List.NoDup_nodup.
  - intros key v Hin. apply List.filter_In in Hin. destruct Hin as [_ Hv].
    intros ->. discriminate.
Qed.

Lemma appointments_query_drops_only_none_witness :
  exists query,
    lookup "includeTotal" query = Some (JBool false)
    /\ lookup "page" query = Some (JNum 1)
    /\ lookup "jobId" query = None.
Proof.
  destruct (appointments_query_drops_only_none Sample.cfg
              JNull JNull JNull JNull JNull JNull JNull JNull JNull JNull
              JNull JNull JNull JNull (JNum 1) (JNum 20) (JBool false) JNull
              (mkState tt (Sample.at_time 1000 Sample.tag_peer))
              (JStr "tok-a")
              (mkState tt
                 (mkWorld 1002 Sample.tag_peer [Core.token_request Sample.cfg]))
              (Raise (HTTPStatusError (mkResponse 404 "(no such tag)" None)))
              (mkState tt
                 (mkWorld 1003 Sample.tag_peer
                    [Core.token_request Sample.cfg;
                     mkRequest "GET"
                       "https://api.servicetitan.io/jpm/v2/tenant/4242/appointments"
                       [("Authorization", Bearer (JStr "tok-a"));
                        ("ST-App-Key", Env (Some "app-key"))]
                       (Some [("page", JNum 1); ("pageSize", JNum 20);
                              ("includeTotal", JBool false)])
                       [] None]))
              eq_refl eq_refl)
    as (query & _ & Hkeys & _).
  exists query. split; [| split].
  - apply (Hkeys "includeTotal" (JBool false)). cbn. auto 20.
  - apply (Hkeys "page" (JNum 1)). cbn. auto 20.
  - apply (Hkeys "jobId" JNull). cbn. auto.
Defined.

(** [get_customer_by_id] answers a 404 from the customers endpoint with a
    dict whose only key is [error] and whose text names the customer id
    asked for; it does not raise, and unlike the dict of servicetitan_crm.py
    this one has no [status_code]. *)
Theorem customer_not_found_names_the_id cfg customer_id s tok s1 r o s' :
  Core.get_access_token cfg s = (Return tok, s1) ->
  next_reply s1 = Replied r ->
  status_code r = 404 ->
  Core.get_customer_by_id cfg customer_id s = (o, s') ->
  exists text,
    o = Return (JObj [("error", JStr text)])
    /\ text = ("Customer " ++ customer_id ++ " not found")%string
    /\ contains customer_id text = true.
Proof.
  intros Htok Hr H404 Hcall. unfold Core.get_customer_by_id in Hcall.
  rewrite (bind_returns _ _ _ _ _ Htok), (send_answered _ _ _ _ Hr) in Hcall.
  rewrite H404 in Hcall. cbn [Z.eqb Pos.eqb] in Hcall.
  exists ("Customer " ++ customer_id ++ " not found")%string.
  split; [now inversion Hcall |]. split; [reflexivity |].
  exact (contains_prefixed "Customer " customer_id " not found").
Qed.

Lemma customer_not_found_names_the_id_witness :
  exists text,
    Return (JObj [("error", JStr "Customer C-17 not found")])
    = Return (JObj [("error", JStr text)])
    /\ text = ("Customer " ++ "C-17" ++ " not found")%string
    /\ contains "C-17" text = true.
Proof.
  apply (customer_not_found_names_the_id Sample.cfg "C-17"
           (mkState tt (Sample.at_time 1000 Sample.tag_peer))
           (JStr "tok-a")
           (mkState tt
              (mkWorld 1002 Sample.tag_peer [Core.token_request Sample.cfg]))
           (mkResponse 404 "(no such tag)" None)
           (Return (JObj [("error", JStr "Customer C-17 not found")]))
           (mkState tt
              (mkWorld 1003 Sample.tag_peer
                 [Core.token_request Sample.cfg;
                  mkRequest "GET"
                    "https://api.servicetitan.io/crm/v2/tenant/4242/customers/C-17"
                    [("Authorization", Bearer (JStr "tok-a"));
                     ("ST-App-Key", Env (Some "app-key"))]
                    None [] None])));
    reflexivity.
Defined.

End CoreTools.
